(** * OLS linear regressor: a shallow embedding of
      [src/ols_regressor/regressor.py] and the properties of its
      three methods [fit], [predict] and [score].

    Numbers are IEEE binary64 values (NumPy's [float64]), modelled by
    Rocq's primitive floats; NaN, the infinities and the signed zeros
    therefore behave as they do in the program.

    What the program takes from its libraries is modelled as follows.
    - An argument [X] or [y] stands for the array [np.array] makes of
      it: an element type, a shape, the elements.  The arrays of the
      model hold [float64] numbers or strings; arrays of integers,
      booleans and other element types are outside it.
    - The numeric routines the program only calls are parameters of
      the estimator: the inner product behind [@], the summation behind
      [np.sum] and [np.mean], and the inversion behind
      [np.linalg.inv].  The order in which they accumulate and round
      is theirs; every property below holds for all of them.  The
      worked examples instantiate them with the accumulation from left
      to right and with Gauss-Jordan elimination.
    - A table is a [DataFrame] of [float64] cells; what [score]
      computes is stated for column labels that are distinct.
    - A method is a function from the instance to an outcome, a value
      or an exception, and the instance afterwards. *)

From Stdlib Require Import String ZArith List Bool Arith Lia.
From Stdlib Require Import Floats.
Import ListNotations.

Local Open Scope string_scope.
Local Open Scope nat_scope.

(* ================================================================== *)
(** * Exceptions and results *)

(** A Python exception, as an observer sees it: the name of its class
    and its message. *)
Record exn : Type := Exn { exn_class : string; exn_msg : string }.

Definition ValueError (msg : string) : exn := Exn "ValueError" msg.
Definition TypeError (msg : string) : exn := Exn "TypeError" msg.
Definition KeyError (key : string) : exn := Exn "KeyError" key.
(** Raised by [numpy.linalg]. *)
Definition LinAlgError (msg : string) : exn := Exn "LinAlgError" msg.
(** Raised by a NumPy ufunc that has no loop for the operand types. *)
Definition UFuncTypeError (msg : string) : exn := Exn "UFuncTypeError" msg.

Inductive result (A : Type) : Type :=
| Ok (a : A)
| Raise (e : exn).
Arguments Ok {A} a.
Arguments Raise {A} e.

Definition rbind {A B : Type} (r : result A) (k : A -> result B) : result B :=
  match r with
  | Ok a => k a
  | Raise e => Raise e
  end.

(* ================================================================== *)
(** * NumPy arrays *)

(** The two kinds of element type the program tells apart:
    [np.issubdtype(dtype, np.number)] holds of [float64] and fails on
    a string array, which is what [np.array] builds as soon as one
    element of its argument is a string.  Other element types are
    not modelled. *)
Inductive dtype : Type := float64 | str_.

Definition issubdtype_number (d : dtype) : bool :=
  match d with
  | float64 => true
  | str_ => false
  end.

(** An [ndarray]: element type, shape, and the elements in row-major
    order.  For a string array the payload is never read. *)
Record ndarray : Type := mk_ndarray {
  arr_dtype : dtype;
  shape : list nat;
  data : list float
}.

Definition ndim (a : ndarray) : nat := length (shape a).

(** [a.shape[i]], read only after [ndim] has been checked. *)
Definition shape_at (a : ndarray) (i : nat) : nat := nth i (shape a) 0.

(** [len(a)]: the first extent; a 0-dimensional array has no length. *)
Definition np_len (a : ndarray) : result nat :=
  match shape a with
  | [] => Raise (TypeError "len() of unsized object")
  | n :: _ => Ok n
  end.

(** Element [(i, j)] of a 2-dimensional array with [cols] columns. *)
Definition get2 (cols : nat) (d : list float) (i j : nat) : float :=
  nth (i * cols + j) d nan.

Definition row_of (cols : nat) (d : list float) (i : nat) : list float :=
  map (fun j => get2 cols d i j) (seq 0 cols).

Definition col_of (rows cols : nat) (d : list float) (j : nat) : list float :=
  map (fun i => get2 cols d i j) (seq 0 rows).

(** [a.T] of a 2-dimensional array; arrays of another rank do not
    reach it in this program and are left as they are. *)
Definition transpose (a : ndarray) : ndarray :=
  match shape a with
  | [n; k] =>
      mk_ndarray (arr_dtype a) [k; n]
        (flat_map (fun j => col_of n k (data a) j) (seq 0 k))
  | _ => a
  end.

(** The message of the exception a ufunc raises for operand types it
    has no loop for, up to the operand types, which NumPy appends and
    the model leaves out. *)
Definition matmul_type_msg : string :=
  "ufunc 'matmul' did not contain a loop with signature matching types".
Definition matmul_dim_msg : string :=
  "matmul: Input operand 1 has a mismatch in its core dimension 0".
Definition matmul_rank_msg : string :=
  "matmul: Input operand does not have enough dimensions".

(** [np.isnan(a).any()] *)
Definition isnan_any (a : ndarray) : bool := existsb PrimFloat.is_nan (data a).

(** [np.isfinite(a).all()] *)
Definition isfinite_all (a : ndarray) : bool := forallb PrimFloat.is_finite (data a).

Definition float_of_nat (n : nat) : float :=
  PrimFloat.of_uint63 (Uint63.of_Z (Z.of_nat n)).

(** [x ** 2] *)
Definition square (x : float) : float := (x * x)%float.

(** Element-wise [u - v] of two columns of one table (equal lengths). *)
Definition sub_arrays (u v : list float) : list float :=
  map (fun p => (fst p - snd p)%float) (combine u v).

(** [u - c] for a scalar [c], broadcast over the array. *)
Definition sub_scalar (u : list float) (c : float) : list float :=
  map (fun x => (x - c)%float) u.

(* ================================================================== *)
(** * Tables *)

(** A [pandas.DataFrame] of [float64] cells: the column labels and
    the rows.  A cell missing from a row reads as NaN. *)
Record DataFrame : Type := mk_DataFrame {
  columns : list string;
  rows : list (list float)
}.

(** What a caller may pass as the first argument of [score]. *)
Inductive pyobject : Type :=
| PyDataFrame (df : DataFrame)
| PyList (l : list (list float))
| PyArray (a : ndarray)
| PyNone.

Fixpoint index_of (name : string) (cols : list string) : option nat :=
  match cols with
  | [] => None
  | c :: rest =>
      if String.eqb name c then Some 0
      else option_map S (index_of name rest)
  end.

(** [len(df)] *)
Definition df_len (df : DataFrame) : nat := length (rows df).

(** [df.empty]: some axis has length zero. *)
Definition df_empty (df : DataFrame) : bool :=
  (length (rows df) =? 0) || (length (columns df) =? 0).

(** [df[name].values] for a label that names at most one column: the
    values of that column, or [KeyError] when there is none.  (A label
    that several columns carry selects them all; the properties that
    read the values assume distinct labels.) *)
Definition df_column (df : DataFrame) (name : string) : result (list float) :=
  match index_of name (columns df) with
  | Some j => Ok (map (fun r => nth j r nan) (rows df))
  | None => Raise (KeyError name)
  end.

(* ================================================================== *)
(** * Reference numeric routines

    The estimator below takes the numeric routines of NumPy as
    parameters.  For worked examples this section supplies one
    instance of each. *)

(** Inner product: the products are added in the order of the
    elements. *)
Definition dot_left_to_right (u v : list float) : float :=
  fold_left (fun acc p => (acc + fst p * snd p)%float) (combine u v) 0%float.

(** Summation in the order of the elements. *)
Definition sum_left_to_right (v : list float) : float :=
  fold_left PrimFloat.add v 0%float.

(* ================================================================== *)
(** ** Matrix inversion

    Gauss-Jordan elimination with partial pivoting on the matrix
    extended by the identity, reporting a singular matrix when a pivot
    is exactly zero. *)

Definition unit_row (n i : nat) : list float :=
  map (fun j => if j =? i then 1%float else 0%float) (seq 0 n).

Definition augment (n : nat) (d : list float) : list (list float) :=
  map (fun i => (row_of n d i ++ unit_row n i)%list) (seq 0 n).

(** The row whose entry in column [c] is largest in absolute value
    (the first one among equals), and the rows left over. *)
Fixpoint pick_pivot (c : nat) (todo : list (list float))
  : option (list float * list (list float)) :=
  match todo with
  | [] => None
  | r :: rest =>
      match pick_pivot c rest with
      | None => Some (r, [])
      | Some (p, others) =>
          if (abs (nth c r 0) <? abs (nth c p 0))%float
          then Some (p, r :: others)
          else Some (r, rest)
      end
  end.

(** [r - r[c] * p] *)
Definition eliminate (c : nat) (p r : list float) : list float :=
  let f := nth c r 0%float in
  map (fun xy => (fst xy - f * snd xy)%float) (combine r p).

Fixpoint gauss_jordan (cs : list nat) (done todo : list (list float))
  : option (list (list float)) :=
  match cs with
  | [] => Some done
  | c :: cs' =>
      match pick_pivot c todo with
      | None => None
      | Some (p, others) =>
          let pv := nth c p 0%float in
          if (pv =? 0)%float then None
          else
            let p' := map (fun x => (x / pv)%float) p in
            gauss_jordan cs' (map (eliminate c p') done ++ [p'])%list
                         (map (eliminate c p') others)
      end
  end.

Definition gauss_jordan_inv (n : nat) (d : list float) : option (list float) :=
  match gauss_jordan (seq 0 n) [] (augment n d) with
  | Some rs => Some (flat_map (skipn n) rs)
  | None => None
  end.

(* ================================================================== *)
(** * The estimator *)

(** The instance: its only attribute is [coef], [None] until a [fit]
    assigns it. *)
Record LinearRegressor : Type := mk_LinearRegressor {
  coef : option ndarray
}.

(** [__init__] *)
Definition init : LinearRegressor := mk_LinearRegressor None.

(** A method body: it reads and writes the instance, and either
    returns a value or raises. *)
Definition M (A : Type) : Type := LinearRegressor -> result A * LinearRegressor.

Definition ret {A : Type} (a : A) : M A := fun self => (Ok a, self).

Definition raise {A : Type} (e : exn) : M A := fun self => (Raise e, self).

Definition bind {A B : Type} (c : M A) (k : A -> M B) : M B :=
  fun self =>
    match c self with
    | (Ok a, self') => k a self'
    | (Raise e, self') => (Raise e, self')
    end.

Definition lift {A : Type} (r : result A) : M A := fun self => (r, self).

Definition get_coef : M (option ndarray) := fun self => (Ok (coef self), self).

Definition set_coef (c : option ndarray) : M unit :=
  fun _ => (Ok tt, mk_LinearRegressor c).

(** [if b: raise e] *)
Definition raise_if (b : bool) (e : exn) : M unit :=
  if b then raise e else ret tt.

Declare Scope method_scope.
Delimit Scope method_scope with method.
Notation "x <- c ;; k" := (bind c (fun x => k))
  (at level 61, c at next level, right associativity) : method_scope.
Notation "c ;; k" := (bind c (fun _ => k))
  (at level 61, right associativity) : method_scope.

Definition msg_X_2d : string := "X should be a 2D array.".
Definition msg_y_1d : string := "y should be a 1D array.".
Definition msg_examples_equal : string :=
  "The number of examples in X and y should be equal.".
Definition msg_examples_features : string :=
  "The number of examples in X should be greater than the number of features.".
Definition msg_not_fitted : string := "Model not fitted. Call fit first.".
Definition msg_features_coef : string :=
  "The number of features in X should be equal to the number of coefficients.".
Definition msg_non_numeric : string := "Input contains non-numeric values.".
Definition msg_nan : string := "Input contains NaN values.".
Definition msg_infinite : string := "Input contains infinite values.".
Definition msg_not_dataframe : string := "Input must be a pandas DataFrame".
Definition msg_two_points : string := "DataFrame must have at least two data points".
Definition msg_singular : string := "Singular matrix".
Definition msg_not_square : string :=
  "Last 2 dimensions of the array must be square".
Definition msg_linalg_rank : string :=
  "array must be at least two-dimensional".

(* ================================================================== *)
(** * Data of the worked examples *)

Module Examples.

Local Open Scope float_scope.

(** Three samples, an intercept column and one feature. *)
Definition X_line : ndarray :=
  mk_ndarray float64 [3; 2]%nat [1; 1; 1; 2; 1; 3].
Definition y_line : ndarray := mk_ndarray float64 [3]%nat [1; 2; 3].
Definition X_query : ndarray := mk_ndarray float64 [1; 2]%nat [1; 4].

(** Two samples on the axes, targets [y = X [1, 1]]: every product
    and every sum of the fit is exact. *)
Definition X_axes : ndarray := mk_ndarray float64 [2; 2]%nat [2; 0; 0; 4].
Definition y_axes : ndarray := mk_ndarray float64 [2]%nat [2; 4].
Definition w_ones : ndarray := mk_ndarray float64 [2]%nat [1; 1].

(** Inputs the shape validations of [fit] refuse. *)
Definition X_flat : ndarray := mk_ndarray float64 [3]%nat [1; 2; 3].
Definition y_matrix : ndarray :=
  mk_ndarray float64 [3; 1]%nat [1; 2; 3].
Definition y_short : ndarray := mk_ndarray float64 [2]%nat [1; 2].
(** Two samples, three features. *)
Definition X_wide : ndarray :=
  mk_ndarray float64 [2; 3]%nat [1; 2; 3; 4; 5; 6].

(** Inputs of questionable content. *)
Definition X_zero : ndarray := mk_ndarray float64 [1; 1]%nat [0].
Definition X_nan : ndarray := mk_ndarray float64 [1; 1]%nat [nan].
Definition y_one : ndarray := mk_ndarray float64 [1]%nat [1].
Definition X_text : ndarray := mk_ndarray str_ [1; 2]%nat [].
Definition X_with_nan : ndarray := mk_ndarray float64 [1; 2]%nat [1; nan].
Definition X_with_inf : ndarray :=
  mk_ndarray float64 [1; 2]%nat [1; infinity].
Definition X_three_columns : ndarray :=
  mk_ndarray float64 [1; 3]%nat [1; 4; 9].

(** A fitted instance with coefficients [0, 1]. *)
Definition w_line : ndarray := mk_ndarray float64 [2]%nat [0; 1].
Definition fitted_line : LinearRegressor := mk_LinearRegressor (Some w_line).

(** Tables with a column of true and a column of predicted values. *)
Definition table_exact : DataFrame :=
  mk_DataFrame ["true"; "pred"]%string [[1; 1]; [2; 2]; [3; 3]; [4; 4]].
Definition table_mean : DataFrame :=
  mk_DataFrame ["true"; "pred"]%string
               [[1; 2.5]; [2; 2.5]; [3; 2.5]; [4; 2.5]].
Definition table_constant : DataFrame :=
  mk_DataFrame ["true"; "pred"]%string [[2; 2]; [2; 2]].
Definition table_one_row : DataFrame :=
  mk_DataFrame ["true"; "pred"]%string [[1; 1]].

End Examples.

Section Estimator.

(** The inner product of two vectors of one length, as the routine
    behind [@] accumulates and rounds it. *)
Variable blas_dot : list float -> list float -> float.

(** The sum of the elements of a 1-dimensional array, as the loop
    behind [np.sum] and [np.mean] accumulates it. *)
Variable add_reduce : list float -> float.

(** The LAPACK routine behind [np.linalg.inv]: from the order [n] of
    a square matrix and its [n * n] elements, the elements of the
    inverse, or [None] when it reports a singular matrix. *)
Variable lapack_inv : nat -> list float -> option (list float).

(** [a @ b] with a 2-dimensional left operand, the only kind the
    program has: matrix by matrix and matrix by vector; a right operand
    without dimensions is refused.  (A right operand of rank three or
    more, which only an assignment to [coef] from outside the class
    could supply, is not covered.)  The operand types are resolved
    first, then the inner extents are compared. *)
Definition matmul (a b : ndarray) : result ndarray :=
  if negb (issubdtype_number (arr_dtype a) && issubdtype_number (arr_dtype b))
  then Raise (UFuncTypeError matmul_type_msg)
  else
    match shape a, shape b with
    | [n; k], [k'; m] =>
        if k =? k' then
          Ok (mk_ndarray float64 [n; m]
                (flat_map
                   (fun i => map (fun j => blas_dot (row_of k (data a) i)
                                              (col_of k m (data b) j))
                                 (seq 0 m))
                   (seq 0 n)))
        else Raise (ValueError matmul_dim_msg)
    | [n; k], [k'] =>
        if k =? k' then
          Ok (mk_ndarray float64 [n]
                (map (fun i => blas_dot (row_of k (data a) i) (data b)) (seq 0 n)))
        else Raise (ValueError matmul_dim_msg)
    | _, _ => Raise (ValueError matmul_rank_msg)
    end.

(** [np.sum] of a 1-dimensional array *)
Definition np_sum (v : list float) : float := add_reduce v.

(** [np.mean]: the sum divided by the number of elements. *)
Definition np_mean (v : list float) : float :=
  (add_reduce v / float_of_nat (length v))%float.

(** [np.linalg.inv]: checks rank and squareness, then wraps the
    routine's output in an array of the shape of its argument. *)
Definition linalg_inv (a : ndarray) : result ndarray :=
  match shape a with
  | [n; m] =>
      if n =? m then
        match lapack_inv n (data a) with
        | Some d => Ok (mk_ndarray float64 [n; n] d)
        | None => Raise (LinAlgError msg_singular)
        end
      else Raise (LinAlgError msg_not_square)
  | _ => Raise (LinAlgError msg_linalg_rank)
  end.

Local Open Scope method_scope.

(** [LinearRegressor.fit] *)
Definition fit (X y : ndarray) : M ndarray :=
  let X_np := X in
  let y_np := y in
  raise_if (negb (ndim X_np =? 2)) (ValueError msg_X_2d) ;;
  raise_if (negb (ndim y_np =? 1)) (ValueError msg_y_1d) ;;
  raise_if (negb (shape_at X_np 0 =? shape_at y_np 0))
           (ValueError msg_examples_equal) ;;
  raise_if (shape_at X_np 0 <? shape_at X_np 1)
           (ValueError msg_examples_features) ;;
  gram <- lift (matmul (transpose X_np) X_np) ;;
  gram_inv <- lift (linalg_inv gram) ;;
  proj <- lift (matmul gram_inv (transpose X_np)) ;;
  w <- lift (matmul proj y_np) ;;
  set_coef (Some w) ;;
  ret w.

(** [LinearRegressor.predict] *)
Definition predict (X : ndarray) : M ndarray :=
  c <- get_coef ;;
  match c with
  | None => raise (ValueError msg_not_fitted)
  | Some self_coef =>
      raise_if (negb (ndim X =? 2)) (ValueError msg_X_2d) ;;
      n_coef <- lift (np_len self_coef) ;;
      raise_if (negb (shape_at X 1 =? n_coef)) (ValueError msg_features_coef) ;;
      raise_if (negb (issubdtype_number (arr_dtype X)))
               (ValueError msg_non_numeric) ;;
      raise_if (isnan_any X) (ValueError msg_nan) ;;
      raise_if (negb (isfinite_all X)) (ValueError msg_infinite) ;;
      pred <- lift (matmul X self_coef) ;;
      ret pred
  end.

(** [LinearRegressor.score] *)
Definition score (df : pyobject) (true_column pred_column : string) : M float :=
  match df with
  | PyDataFrame df =>
      raise_if (df_empty df || (df_len df <? 2)) (ValueError msg_two_points) ;;
      y_true <- lift (df_column df true_column) ;;
      y_pred <- lift (df_column df pred_column) ;;
      let y_true_mean := np_mean y_true in
      let SST := np_sum (map square (sub_scalar y_true y_true_mean)) in
      let SSE := np_sum (map square (sub_arrays y_true y_pred)) in
      let r2 := (1 - SSE / SST)%float in
      ret r2
  | _ => raise (TypeError msg_not_dataframe)
  end.

(** ** Calls on one instance *)

Inductive call : Type :=
| CallFit (X y : ndarray)
| CallPredict (X : ndarray)
| CallScore (df : pyobject) (true_column pred_column : string).

(** The instance after a call, whether it returned or raised. *)
Definition exec (c : call) (self : LinearRegressor) : LinearRegressor :=
  match c with
  | CallFit X y => snd (fit X y self)
  | CallPredict X => snd (predict X self)
  | CallScore df t p => snd (score df t p self)
  end.

Definition run (calls : list call) (self : LinearRegressor) : LinearRegressor :=
  fold_left (fun s c => exec c s) calls self.

(** Does the call return from [fit]? *)
Definition fit_returns (c : call) (self : LinearRegressor) : bool :=
  match c with
  | CallFit X y =>
      match fst (fit X y self) with
      | Ok _ => true
      | Raise _ => false
      end
  | _ => false
  end.

(** No call of the sequence is a [fit] that returns. *)
Fixpoint no_fit_returns (calls : list call) (self : LinearRegressor) : bool :=
  match calls with
  | [] => true
  | c :: rest => negb (fit_returns c self) && no_fit_returns rest (exec c self)
  end.

(** Only [predict] and [score] are called. *)
Definition read_only (c : call) : bool :=
  match c with
  | CallFit _ _ => false
  | _ => true
  end.

(** ** The conditions the methods test *)

(** The four shape validations of [fit]. *)
Definition fit_shapes_ok (X y : ndarray) : bool :=
  (ndim X =? 2) && (ndim y =? 1) && (shape_at X 0 =? shape_at y 0)
  && negb (shape_at X 0 <? shape_at X 1).

(** The validations of [predict] that follow the fitted-state check. *)
Definition predict_input_ok (self_coef X : ndarray) : bool :=
  (ndim X =? 2)
  && match np_len self_coef with
     | Ok n => shape_at X 1 =? n
     | Raise _ => false
     end
  && issubdtype_number (arr_dtype X)
  && negb (isnan_any X)
  && isfinite_all X.

(** [inv(X.T @ X) @ X.T @ y], evaluated from left to right; an
    exception of any step is the exception of the whole. *)
Definition normal_equations (X y : ndarray) : result ndarray :=
  rbind (matmul (transpose X) X) (fun gram =>
  rbind (linalg_inv gram) (fun gram_inv =>
  rbind (matmul gram_inv (transpose X)) (fun proj =>
  matmul proj y))).

(** The two sums of squares of [score] and their quotient form. *)
Definition sst (y_true : list float) : float :=
  np_sum (map square (sub_scalar y_true (np_mean y_true))).

Definition sse (y_true y_pred : list float) : float :=
  np_sum (map square (sub_arrays y_true y_pred)).

(** The elements of [X^T X] for an [X] of [n] rows and [k] columns,
    row by row: entry [(a, b)] is the inner product of the columns [a]
    and [b] of [X]. *)
Definition gram_entries (X : ndarray) : list float :=
  let n := shape_at X 0 in
  let k := shape_at X 1 in
  flat_map (fun a => map (fun b => blas_dot (col_of n k (data X) a)
                                            (col_of n k (data X) b))
                         (seq 0 k))
           (seq 0 k).

(** The entries of [(D X^T) y] for the [k] by [k] matrix [D] of
    elements [d]: entry [(a, j)] of [D X^T] is the inner product of row
    [a] of [D] and row [j] of [X], and coefficient [a] is the inner
    product of row [a] of [D X^T] and [y]. *)
Definition ols_coefficients (d : list float) (X y : ndarray) : list float :=
  let n := shape_at X 0 in
  let k := shape_at X 1 in
  map (fun a => blas_dot (map (fun j => blas_dot (row_of k d a)
                                                 (row_of k (data X) j))
                              (seq 0 n))
                         (data y))
      (seq 0 k).

(** The coefficients an instance can hold: [coef] is unset or a
    numeric vector. *)
Definition coef_is_vector (self : LinearRegressor) : Prop :=
  match coef self with
  | None => True
  | Some w =>
      arr_dtype w = float64 /\ shape w = [length (data w)]
  end.

(* ================================================================== *)
(** * Facts of binary64 arithmetic used below *)

Section FloatFacts.

Local Open Scope float_scope.

Lemma SFcompare_finite_refl (s : bool) (m : positive) (e : Z) :
  SFcompare (S754_finite s m e) (S754_finite s m e) = Some Eq.
Proof.
  simpl. rewrite Z.compare_refl, Pos.compare_cont_refl.
  destruct s; reflexivity.
Qed.

Lemma is_nan_spec (x : float) :
  PrimFloat.is_nan x = true <-> Prim2SF x = S754_nan.
Proof.
  unfold PrimFloat.is_nan. rewrite eqb_spec. unfold SFeqb.
  destruct (Prim2SF x) as [s|s| |s m e].
  - destruct s; simpl; split; discriminate.
  - destruct s; simpl; split; discriminate.
  - simpl; split; reflexivity.
  - rewrite SFcompare_finite_refl. simpl. split; discriminate.
Qed.

Lemma is_zero_spec (x : float) :
  PrimFloat.is_zero x = true <-> exists s, Prim2SF x = S754_zero s.
Proof.
  unfold PrimFloat.is_zero. rewrite eqb_spec. unfold SFeqb.
  change (Prim2SF zero) with (S754_zero false).
  destruct (Prim2SF x) as [s|s| |s m e]; simpl.
  - split; eauto.
  - destruct s; split; try discriminate; intros [? ?]; discriminate.
  - split; try discriminate; intros [? ?]; discriminate.
  - destruct s; split; try discriminate; intros [? ?]; discriminate.
Qed.

Lemma is_infinity_spec (x : float) :
  PrimFloat.is_infinity x = true <-> exists s, Prim2SF x = S754_infinity s.
Proof.
  unfold PrimFloat.is_infinity. rewrite eqb_spec, abs_spec. unfold SFeqb.
  change (Prim2SF infinity) with (S754_infinity false).
  destruct (Prim2SF x) as [s|s| |s m e]; simpl.
  - split; try discriminate; intros [? ?]; discriminate.
  - split; eauto.
  - split; try discriminate; intros [? ?]; discriminate.
  - split; try discriminate; intros [? ?]; discriminate.
Qed.

(** There is one NaN. *)
Lemma is_nan_eq (x : float) : PrimFloat.is_nan x = true -> x = nan.
Proof.
  intro H. apply Prim2SF_inj. apply is_nan_spec in H. rewrite H. reflexivity.
Qed.

(** The shape of a finite value: a zero or a finite nonzero number. *)
Lemma is_finite_cases (x : float) :
  PrimFloat.is_finite x = true ->
  (exists s, Prim2SF x = S754_zero s) \/
  (exists s m e, Prim2SF x = S754_finite s m e).
Proof.
  unfold PrimFloat.is_finite. intro H.
  apply negb_true_iff, orb_false_iff in H. destruct H as [Hn Hi].
  destruct (Prim2SF x) as [s|s| |s m e] eqn:E.
  - left; eauto.
  - assert (PrimFloat.is_infinity x = true) by (apply is_infinity_spec; eauto).
    congruence.
  - assert (PrimFloat.is_nan x = true) by (apply is_nan_spec; auto).
    congruence.
  - right; eauto.
Qed.

(** [x - x] is [+0] for every finite [x]. *)
Lemma sub_diag_finite (x : float) :
  PrimFloat.is_finite x = true -> x - x = 0.
Proof.
  intro H. apply Prim2SF_inj. rewrite sub_spec.
  change (Prim2SF 0) with (S754_zero false).
  destruct (is_finite_cases x H) as [[s E]|[s [m [e E]]]]; rewrite E.
  - destruct s; reflexivity.
  - unfold SF64sub, SFsub. cbv zeta. rewrite Z.sub_diag. reflexivity.
Qed.

(** [x / x] is exactly [1] for every finite nonzero [x]. *)
Lemma div_diag_finite (x : float) :
  PrimFloat.is_finite x = true -> PrimFloat.is_zero x = false -> x / x = 1.
Proof.
  intros H Hz. apply Prim2SF_inj. rewrite div_spec.
  destruct (is_finite_cases x H) as [[s E]|[s [m [e E]]]].
  - assert (PrimFloat.is_zero x = true) by (apply is_zero_spec; eauto).
    congruence.
  - rewrite E. unfold SF64div, SFdiv, SFdiv_core_binary. cbv zeta.
    rewrite !Z.sub_diag.
    change (Z.min (fexp prec emax 0) 0) with (-53)%Z.
    change (0 - -53)%Z with 53%Z. cbv iota beta.
    assert (Hd : Z.div_eucl (Z.shiftl (Z.pos m) 53) (Z.pos m)
                 = (9007199254740992%Z, 0%Z)).
    { rewrite Z.shiftl_mul_pow2 by lia.
      pose proof (Z.div_eucl_eq (Z.pos m * 2 ^ 53) (Z.pos m) ltac:(lia)) as Heq.
      pose proof (Z.mod_pos_bound (Z.pos m * 2 ^ 53) (Z.pos m) ltac:(lia)) as Hb.
      unfold Z.modulo in Hb.
      destruct (Z.div_eucl (Z.pos m * 2 ^ 53) (Z.pos m)) as [q r].
      assert (q = 2 ^ 53)%Z by nia. subst q.
      assert (r = 0)%Z by lia. subst r. reflexivity. }
    rewrite Hd.
    assert (Hl : new_location (Z.pos m) 0 = loc_Exact).
    { unfold new_location. destruct (Z.even (Z.pos m)); reflexivity. }
    rewrite Hl, xorb_nilpotent. vm_compute. reflexivity.
Qed.

(** [0 / x] is a zero as soon as [x] is a nonzero number. *)
Lemma zero_div_is_zero (x : float) :
  PrimFloat.is_nan x = false -> PrimFloat.is_zero x = false ->
  PrimFloat.is_zero (0 / x) = true.
Proof.
  intros Hn Hz. apply is_zero_spec. rewrite div_spec.
  change (Prim2SF 0) with (S754_zero false).
  destruct (Prim2SF x) as [s|s| |s m e] eqn:E.
  - assert (PrimFloat.is_zero x = true) by (apply is_zero_spec; eauto).
    congruence.
  - simpl. eauto.
  - assert (PrimFloat.is_nan x = true) by (apply is_nan_spec; auto).
    congruence.
  - simpl. eauto.
Qed.

(** Subtracting a zero of either sign from [1] leaves [1]. *)
Lemma one_sub_zero (z : float) : PrimFloat.is_zero z = true -> 1 - z = 1.
Proof.
  intro H. apply Prim2SF_inj. rewrite sub_spec.
  apply is_zero_spec in H. destruct H as [s E]. rewrite E. reflexivity.
Qed.

(** The squared differences of a finite column with itself are all
    [+0], and so is their sum. *)
Lemma squares_of_self_difference (v : list float) :
  Forall (fun x => PrimFloat.is_finite x = true) v ->
  map square (sub_arrays v v) = repeat 0 (length v).
Proof.
  induction 1 as [|x v Hx Hv IH]; [reflexivity|].
  unfold sub_arrays in *. simpl. rewrite IH.
  rewrite (sub_diag_finite x Hx). reflexivity.
Qed.

(** Subtracting one value from every entry is subtracting a column
    that repeats it. *)
Lemma sub_arrays_constant (v : list float) (c : float) :
  sub_arrays v (map (fun _ => c) v) = sub_scalar v c.
Proof.
  unfold sub_arrays, sub_scalar.
  induction v as [|x v IH]; simpl; [reflexivity|]. now rewrite IH.
Qed.

End FloatFacts.

(* ================================================================== *)
(** * Arrays: shapes of products *)

Lemma ndim_2_shape (a : ndarray) :
  ndim a = 2 -> shape a = [shape_at a 0; shape_at a 1].
Proof.
  unfold ndim, shape_at.
  destruct (shape a) as [|n [|k [|? ?]]]; simpl; intro H; try discriminate.
  reflexivity.
Qed.

Lemma ndim_1_shape (a : ndarray) : ndim a = 1 -> shape a = [shape_at a 0].
Proof.
  unfold ndim, shape_at.
  destruct (shape a) as [|n [|? ?]]; simpl; intro H; try discriminate.
  reflexivity.
Qed.

Lemma transpose_2d (a : ndarray) (n k : nat) :
  shape a = [n; k] ->
  transpose a =
  mk_ndarray (arr_dtype a) [k; n]
    (flat_map (fun j => col_of n k (data a) j) (seq 0 k)).
Proof. intro H. unfold transpose. rewrite H. reflexivity. Qed.

(** A product that returns had numeric operands. *)
Lemma matmul_ok_numeric (a b c : ndarray) :
  matmul a b = Ok c -> arr_dtype a = float64 /\ arr_dtype b = float64.
Proof.
  unfold matmul. destruct (arr_dtype a), (arr_dtype b); simpl;
    intro H; try discriminate; auto.
Qed.

(** Matrix by matrix. *)
Lemma matmul_2d_2d (a b : ndarray) (n k m : nat) :
  arr_dtype a = float64 -> arr_dtype b = float64 ->
  shape a = [n; k] -> shape b = [k; m] ->
  matmul a b =
  Ok (mk_ndarray float64 [n; m]
        (flat_map (fun i => map (fun j => blas_dot (row_of k (data a) i)
                                             (col_of k m (data b) j))
                                (seq 0 m))
                  (seq 0 n))).
Proof.
  intros Ha Hb Hsa Hsb. unfold matmul.
  rewrite Ha, Hb, Hsa, Hsb. simpl. rewrite Nat.eqb_refl. reflexivity.
Qed.

(** Matrix by vector: one inner product per row. *)
Lemma matmul_2d_1d (a b : ndarray) (n k : nat) :
  arr_dtype a = float64 -> arr_dtype b = float64 ->
  shape a = [n; k] -> shape b = [k] ->
  matmul a b =
  Ok (mk_ndarray float64 [n]
        (map (fun i => blas_dot (row_of k (data a) i) (data b)) (seq 0 n))).
Proof.
  intros Ha Hb Hsa Hsb. unfold matmul.
  rewrite Ha, Hb, Hsa, Hsb. simpl. rewrite Nat.eqb_refl. reflexivity.
Qed.

(** A string operand makes the product raise, whatever the shapes. *)
Lemma matmul_non_numeric (a b : ndarray) :
  arr_dtype a = str_ \/ arr_dtype b = str_ ->
  matmul a b = Raise (UFuncTypeError matmul_type_msg).
Proof.
  unfold matmul. intros [H|H]; rewrite H; simpl;
    [|destruct (arr_dtype a)]; reflexivity.
Qed.

Lemma index_of_some_nonempty (name : string) (cols : list string) (j : nat) :
  index_of name cols = Some j -> cols <> [].
Proof. destruct cols; simpl; [discriminate|]. intros _ H; discriminate. Qed.

Lemma existsb_is_nan_In (d : list float) :
  existsb PrimFloat.is_nan d = true <-> In nan d.
Proof.
  rewrite existsb_exists. split.
  - intros [x [Hin Hx]]. apply is_nan_eq in Hx. now subst.
  - intro H. exists nan. split; [assumption|reflexivity].
Qed.

(* ================================================================== *)
(** * Arrays: rows and columns of a buffer built block by block *)

Lemma flat_map_ext_in {A B : Type} (f g : A -> list B) (l : list A) :
  (forall x, In x l -> f x = g x) -> flat_map f l = flat_map g l.
Proof.
  induction l as [|x l IH]; intro H; simpl; [reflexivity|].
  rewrite (H x (or_introl eq_refl)), IH; [reflexivity|].
  intros z Hz. apply H. right. exact Hz.
Qed.

(** In a concatenation of blocks of one length [m], position
    [a * m + i] is position [i] of block [a]. *)
Lemma nth_flat_map_blocks {A B : Type} (f : A -> list B) (m : nat) (d : B)
      (x0 : A) :
  (forall x, length (f x) = m) ->
  forall l a i, a < length l -> i < m ->
    nth (a * m + i) (flat_map f l) d = nth i (f (nth a l x0)) d.
Proof.
  intros Hf. induction l as [|x l IH]; intros a i Ha Hi; simpl in *.
  - lia.
  - destruct a as [|a]; simpl.
    + apply app_nth1. rewrite Hf. exact Hi.
    + rewrite <- Nat.add_assoc, <- (Hf x), app_nth2_plus, (Hf x).
      apply IH; [lia|exact Hi].
Qed.

Section Blocks.

(** The buffer of the [K] by [m] matrix of entries [g a i] is
    [flat_map (fun a => map (g a) (seq 0 m)) (seq 0 K)]. *)
Variable g : nat -> nat -> float.
Variables K m : nat.

Lemma get2_block_buffer (a i : nat) :
  a < K -> i < m ->
  get2 m (flat_map (fun a => map (g a) (seq 0 m)) (seq 0 K)) a i = g a i.
Proof.
  intros Ha Hi. unfold get2.
  rewrite (nth_flat_map_blocks (fun a => map (g a) (seq 0 m)) m nan 0)
    by (try (intro; rewrite length_map, length_seq; reflexivity);
        try (rewrite length_seq; exact Ha); exact Hi).
  rewrite seq_nth by exact Ha. simpl.
  rewrite (nth_indep _ nan (g a 0)) by (rewrite length_map, length_seq; exact Hi).
  rewrite map_nth, seq_nth by exact Hi. reflexivity.
Qed.

Lemma row_of_block_buffer (a : nat) :
  a < K ->
  row_of m (flat_map (fun a => map (g a) (seq 0 m)) (seq 0 K)) a
  = map (g a) (seq 0 m).
Proof.
  intro Ha. unfold row_of. apply map_ext_in. intros i Hi.
  apply in_seq in Hi. apply get2_block_buffer; [exact Ha|lia].
Qed.

Lemma col_of_block_buffer (i : nat) :
  i < m ->
  col_of K m (flat_map (fun a => map (g a) (seq 0 m)) (seq 0 K)) i
  = map (fun a => g a i) (seq 0 K).
Proof.
  intro Hi. unfold col_of. apply map_ext_in. intros a Ha.
  apply in_seq in Ha. apply get2_block_buffer; [lia|exact Hi].
Qed.

End Blocks.

(** The buffer of [a.T]: its rows are the columns of [a], its columns
    the rows of [a]. *)
Lemma transpose_rows (n k : nat) (d : list float) (a : nat) :
  a < k ->
  row_of n (flat_map (fun j => col_of n k d j) (seq 0 k)) a = col_of n k d a.
Proof.
  intro Ha. unfold col_of at 1.
  exact (row_of_block_buffer (fun j i => get2 k d i j) k n a Ha).
Qed.

Lemma transpose_columns (n k : nat) (d : list float) (j : nat) :
  j < n ->
  col_of k n (flat_map (fun j => col_of n k d j) (seq 0 k)) j = row_of k d j.
Proof.
  intro Hj. unfold col_of at 2.
  exact (col_of_block_buffer (fun j i => get2 k d i j) k n j Hj).
Qed.

(* ================================================================== *)
(** * Properties of the estimator *)


(** Unfolds one method body down to the state-passing functions. *)
Ltac method_steps :=
  unfold bind, raise_if, raise, ret, lift, get_coef, set_coef.

(** ** What [fit] does to the instance *)

Lemma fit_shapes_ok_iff (X y : ndarray) :
  fit_shapes_ok X y = true <->
  ndim X = 2 /\ ndim y = 1 /\ shape_at X 0 = shape_at y 0
  /\ shape_at X 1 <= shape_at X 0.
Proof.
  unfold fit_shapes_ok. rewrite !andb_true_iff, negb_true_iff.
  rewrite !Nat.eqb_eq, Nat.ltb_ge. tauto.
Qed.

(** Past its validations, [fit] is the evaluation of the normal
    equations followed by the assignment to [coef]. *)
Lemma fit_after_validation (X y : ndarray) (self : LinearRegressor) :
  fit_shapes_ok X y = true ->
  fit X y self =
  match normal_equations X y with
  | Ok w => (Ok w, mk_LinearRegressor (Some w))
  | Raise e => (Raise e, self)
  end.
Proof.
  intro H. apply fit_shapes_ok_iff in H. destruct H as (HX & Hy & Hn & Hk).
  unfold fit, normal_equations, rbind. method_steps.
  apply Nat.ltb_ge in Hk.
  rewrite HX, Hy, <- Hn, !Nat.eqb_refl, Hk. simpl.
  destruct (matmul (transpose X) X) as [gram|e]; [|reflexivity].
  destruct (linalg_inv gram) as [gram_inv|e]; [|reflexivity].
  destruct (matmul gram_inv (transpose X)) as [proj|e]; [|reflexivity].
  destruct (matmul proj y) as [w|e]; reflexivity.
Qed.

(** A failed validation raises and leaves the instance as it was. *)
Lemma fit_validation_fails (X y : ndarray) (self : LinearRegressor) :
  fit_shapes_ok X y = false ->
  exists msg, fit X y self = (Raise (ValueError msg), self).
Proof.
  unfold fit_shapes_ok, fit. method_steps. intro H.
  destruct (ndim X =? 2); simpl; [|eauto].
  destruct (ndim y =? 1); simpl; [|eauto].
  destruct (shape_at X 0 =? shape_at y 0); simpl; [|eauto].
  destruct (shape_at X 0 <? shape_at X 1); simpl; [eauto|].
  simpl in H. discriminate.
Qed.

(** Whenever [fit] raises, the instance is untouched. *)
Lemma fit_raise_state (X y : ndarray) (self self' : LinearRegressor) (e : exn) :
  fit X y self = (Raise e, self') -> self' = self.
Proof.
  destruct (fit_shapes_ok X y) eqn:Hs.
  - rewrite (fit_after_validation X y self Hs).
    destruct (normal_equations X y); intro H; inversion H; reflexivity.
  - destruct (fit_validation_fails X y self Hs) as [msg Hm].
    rewrite Hm. intro H; inversion H; reflexivity.
Qed.

(** Whenever [fit] returns, the validations passed, and the value
    returned is the one stored. *)
Lemma fit_ok_inv (X y w : ndarray) (self self' : LinearRegressor) :
  fit X y self = (Ok w, self') ->
  fit_shapes_ok X y = true /\ normal_equations X y = Ok w
  /\ self' = mk_LinearRegressor (Some w).
Proof.
  destruct (fit_shapes_ok X y) eqn:Hs.
  - rewrite (fit_after_validation X y self Hs).
    destruct (normal_equations X y); intro H; inversion H; auto.
  - destruct (fit_validation_fails X y self Hs) as [msg Hm].
    rewrite Hm. discriminate.
Qed.

(** The value of the normal equations, when there is one: a numeric
    vector with one entry per column of [X]. *)
Lemma normal_equations_ok (X y w : ndarray) :
  fit_shapes_ok X y = true ->
  normal_equations X y = Ok w ->
  arr_dtype X = float64 /\ arr_dtype y = float64 /\
  arr_dtype w = float64 /\ shape w = [shape_at X 1]
  /\ length (data w) = shape_at X 1.
Proof.
  intros Hs. apply fit_shapes_ok_iff in Hs. destruct Hs as (HX & Hy & Hn & Hk).
  pose proof (ndim_2_shape X HX) as HsX.
  pose proof (ndim_1_shape y Hy) as Hsy.
  unfold normal_equations, rbind.
  destruct (matmul (transpose X) X) as [gram|e] eqn:Hg; [|discriminate].
  destruct (matmul_ok_numeric _ _ _ Hg) as [_ HdX].
  rewrite (transpose_2d X _ _ HsX) in *.
  rewrite (matmul_2d_2d _ X (shape_at X 1) (shape_at X 0) (shape_at X 1))
    in Hg by (simpl; auto).
  inversion Hg as [Hgram]. clear Hg.
  unfold linalg_inv. simpl. rewrite Nat.eqb_refl.
  destruct (lapack_inv _ _) as [d|]; [|discriminate].
  rewrite (matmul_2d_2d _ _ (shape_at X 1) (shape_at X 1) (shape_at X 0))
    by (simpl; auto).
  destruct (matmul _ y) as [w'|e] eqn:Hw; [|discriminate].
  destruct (matmul_ok_numeric _ _ _ Hw) as [_ Hdy].
  rewrite (matmul_2d_1d _ y (shape_at X 1) (shape_at X 0)) in Hw
    by (simpl; auto; congruence).
  inversion Hw. intro Heq. inversion Heq. subst w. simpl.
  rewrite length_map, length_seq. auto.
Qed.

(** ** [predict] and [score] only read the instance *)

Lemma predict_state (X : ndarray) (self : LinearRegressor) :
  snd (predict X self) = self.
Proof.
  unfold predict. method_steps.
  destruct (coef self) as [w|]; [|reflexivity].
  destruct (negb (ndim X =? 2)); [reflexivity|].
  destruct (np_len w) as [n|e]; [|reflexivity].
  destruct (negb (shape_at X 1 =? n)); [reflexivity|].
  destruct (negb (issubdtype_number (arr_dtype X))); [reflexivity|].
  destruct (isnan_any X); [reflexivity|].
  destruct (negb (isfinite_all X)); [reflexivity|].
  destruct (matmul X w); reflexivity.
Qed.

Lemma score_state (df : pyobject) (t p : string) (self : LinearRegressor) :
  snd (score df t p self) = self.
Proof.
  unfold score. method_steps.
  destruct df as [df|l|a|]; try reflexivity.
  destruct (df_empty df || (df_len df <? 2)); [reflexivity|].
  destruct (df_column df t); [|reflexivity].
  destruct (df_column df p); reflexivity.
Qed.

Lemma exec_read_only (c : call) (self : LinearRegressor) :
  read_only c = true -> exec c self = self.
Proof.
  destruct c; simpl; intro H; try discriminate.
  - apply predict_state.
  - apply score_state.
Qed.

Lemma run_read_only (calls : list call) (self : LinearRegressor) :
  forallb read_only calls = true -> run calls self = self.
Proof.
  revert self. induction calls as [|c calls IH]; intros self H; simpl in *.
  - reflexivity.
  - apply andb_true_iff in H. destruct H as [Hc Hr].
    rewrite (exec_read_only c self Hc). apply IH, Hr.
Qed.

(** A call that is not a returning [fit] leaves the instance as it
    was. *)
Lemma exec_no_fit (c : call) (self : LinearRegressor) :
  fit_returns c self = false -> exec c self = self.
Proof.
  destruct c as [X y|X|df t p]; simpl; intro H.
  - destruct (fit X y self) as [[w|e] self'] eqn:Hf; simpl in *.
    + discriminate.
    + eapply fit_raise_state, Hf.
  - apply predict_state.
  - apply score_state.
Qed.

Lemma run_no_fit (calls : list call) (self : LinearRegressor) :
  no_fit_returns calls self = true -> run calls self = self.
Proof.
  revert self. induction calls as [|c calls IH]; intros self H; simpl in *.
  - reflexivity.
  - apply andb_true_iff in H. destruct H as [Hc Hr].
    apply negb_true_iff in Hc.
    rewrite (exec_no_fit c self Hc) in *. apply IH, Hr.
Qed.

(** ** The coefficients an instance can hold *)

Lemma exec_coef_is_vector (c : call) (self : LinearRegressor) :
  coef_is_vector self -> coef_is_vector (exec c self).
Proof.
  intro H. destruct c as [X y|X|df t p]; simpl.
  - destruct (fit X y self) as [[w|e] self'] eqn:Hf; simpl.
    + destruct (fit_ok_inv _ _ _ _ _ Hf) as (Hs & Hn & ->).
      destruct (normal_equations_ok X y w Hs Hn) as (_ & _ & Hd & Hsh & Hl).
      unfold coef_is_vector. simpl. rewrite Hl. auto.
    + now rewrite (fit_raise_state _ _ _ _ _ Hf).
  - now rewrite predict_state.
  - now rewrite score_state.
Qed.

Lemma run_coef_is_vector (calls : list call) (self : LinearRegressor) :
  coef_is_vector self -> coef_is_vector (run calls self).
Proof.
  revert self. induction calls as [|c calls IH]; intros self H; simpl.
  - exact H.
  - apply IH, exec_coef_is_vector, H.
Qed.

Lemma run_init_coef_is_vector (calls : list call) :
  coef_is_vector (run calls init).
Proof. apply run_coef_is_vector. exact I. Qed.

(** ** The normal equations, step by step *)

(** With a numeric [X] the Gram matrix [X.T @ X] is always computed;
    it is square, of the order of the number of columns of [X]. *)
Lemma gram_matrix (X y : ndarray) :
  fit_shapes_ok X y = true -> arr_dtype X = float64 ->
  exists gram,
    matmul (transpose X) X = Ok gram
    /\ arr_dtype gram = float64
    /\ shape gram = [shape_at X 1; shape_at X 1].
Proof.
  intros Hs HdX. apply fit_shapes_ok_iff in Hs.
  destruct Hs as (HX & _ & _ & _).
  pose proof (ndim_2_shape X HX) as HsX.
  rewrite (transpose_2d X _ _ HsX).
  rewrite (matmul_2d_2d _ X (shape_at X 1) (shape_at X 0) (shape_at X 1))
    by (simpl; auto).
  eexists. split; [reflexivity|]. simpl. auto.
Qed.

(** The product of the inverse, of elements [d], with [X.T] is
    always computed too. *)
Lemma projection_matrix (X y : ndarray) (d : list float) :
  fit_shapes_ok X y = true -> arr_dtype X = float64 ->
  exists proj,
    matmul (mk_ndarray float64 [shape_at X 1; shape_at X 1] d) (transpose X)
    = Ok proj
    /\ arr_dtype proj = float64
    /\ shape proj = [shape_at X 1; shape_at X 0].
Proof.
  intros Hs HdX. apply fit_shapes_ok_iff in Hs.
  destruct Hs as (HX & _ & _ & _).
  pose proof (ndim_2_shape X HX) as HsX.
  rewrite (transpose_2d X _ _ HsX).
  rewrite (matmul_2d_2d _ _ (shape_at X 1) (shape_at X 1) (shape_at X 0))
    by (simpl; auto).
  eexists. split; [reflexivity|]. simpl. auto.
Qed.

(** The last product, with a numeric [y], is a vector with one entry
    per column of [X]. *)
Lemma coefficient_vector (X y proj : ndarray) :
  fit_shapes_ok X y = true -> arr_dtype y = float64 ->
  arr_dtype proj = float64 -> shape proj = [shape_at X 1; shape_at X 0] ->
  exists w, matmul proj y = Ok w /\ shape w = [shape_at X 1].
Proof.
  intros Hs Hdy Hdp Hsp. apply fit_shapes_ok_iff in Hs.
  destruct Hs as (_ & Hy & Hn & _).
  pose proof (ndim_1_shape y Hy) as Hsy.
  rewrite (matmul_2d_1d proj y (shape_at X 1) (shape_at X 0))
    by (auto; congruence).
  eexists. split; reflexivity.
Qed.

(** The normal equations of numeric [X]: the inversion routine
    decides between the singular-matrix error and the two products
    that follow. *)
Lemma normal_equations_numeric (X y gram : ndarray) :
  fit_shapes_ok X y = true -> arr_dtype X = float64 ->
  matmul (transpose X) X = Ok gram ->
  normal_equations X y =
  match lapack_inv (shape_at X 1) (data gram) with
  | None => Raise (LinAlgError msg_singular)
  | Some d =>
      rbind (matmul (mk_ndarray float64 [shape_at X 1; shape_at X 1] d)
                    (transpose X))
            (fun proj => matmul proj y)
  end.
Proof.
  intros Hs HdX Hg.
  destruct (gram_matrix X y Hs HdX) as (gram' & Hg' & _ & Hsh).
  rewrite Hg in Hg'. inversion Hg'. subst gram'.
  unfold normal_equations, rbind. rewrite Hg.
  unfold linalg_inv. rewrite Hsh, Nat.eqb_refl.
  destruct (lapack_inv _ _); reflexivity.
Qed.

(** The only exceptions of the normal equations are NumPy's own. *)
Lemma normal_equations_raise (X y : ndarray) (e : exn) :
  fit_shapes_ok X y = true ->
  normal_equations X y = Raise e ->
  e = UFuncTypeError matmul_type_msg \/ e = LinAlgError msg_singular.
Proof.
  intros Hs. destruct (arr_dtype X) eqn:HdX.
  - destruct (gram_matrix X y Hs HdX) as (gram & Hg & _ & _).
    rewrite (normal_equations_numeric X y gram Hs HdX Hg).
    destruct (lapack_inv _ _) as [d|].
    + destruct (projection_matrix X y d Hs HdX) as (proj & Hp & Hdp & Hsp).
      rewrite Hp. simpl.
      destruct (arr_dtype y) eqn:Hdy.
      * destruct (coefficient_vector X y proj Hs Hdy Hdp Hsp) as (w & Hw & _).
        rewrite Hw. discriminate.
      * rewrite matmul_non_numeric by auto. intro H; inversion H; auto.
    + intro H; inversion H; auto.
  - unfold normal_equations, rbind.
    rewrite matmul_non_numeric by auto. intro H; inversion H; auto.
Qed.

(** The Gram matrix entry by entry: inner products of the columns
    of [X]. *)
Lemma gram_matrix_entries (X y : ndarray) :
  fit_shapes_ok X y = true -> arr_dtype X = float64 ->
  matmul (transpose X) X
  = Ok (mk_ndarray float64 [shape_at X 1; shape_at X 1] (gram_entries X)).
Proof.
  intros Hs HdX. apply fit_shapes_ok_iff in Hs.
  destruct Hs as (HX & _ & _ & _).
  pose proof (ndim_2_shape X HX) as HsX.
  rewrite (transpose_2d X _ _ HsX).
  rewrite (matmul_2d_2d _ X (shape_at X 1) (shape_at X 0) (shape_at X 1))
    by (simpl; auto).
  simpl. unfold gram_entries. do 2 f_equal.
  apply flat_map_ext_in. intros a Ha. apply in_seq in Ha.
  apply map_ext. intro b. rewrite transpose_rows by lia. reflexivity.
Qed.

(** The normal equations entry by entry, from the elements [d] the
    inversion routine returns for the Gram matrix. *)
Lemma normal_equations_entries (X y : ndarray) (d : list float) :
  fit_shapes_ok X y = true ->
  arr_dtype X = float64 -> arr_dtype y = float64 ->
  lapack_inv (shape_at X 1) (gram_entries X) = Some d ->
  normal_equations X y
  = Ok (mk_ndarray float64 [shape_at X 1] (ols_coefficients d X y)).
Proof.
  intros Hs HdX Hdy Hd.
  rewrite (normal_equations_numeric X y _ Hs HdX
             (gram_matrix_entries X y Hs HdX)).
  simpl. rewrite Hd.
  apply fit_shapes_ok_iff in Hs. destruct Hs as (HX & Hy & Hn & _).
  pose proof (ndim_2_shape X HX) as HsX.
  pose proof (ndim_1_shape y Hy) as Hsy.
  rewrite (transpose_2d X _ _ HsX).
  rewrite (matmul_2d_2d _ _ (shape_at X 1) (shape_at X 1) (shape_at X 0))
    by (simpl; auto).
  simpl.
  rewrite (matmul_2d_1d _ y (shape_at X 1) (shape_at X 0))
    by (simpl; auto; congruence).
  simpl. unfold ols_coefficients. do 2 f_equal.
  apply map_ext_in. intros a Ha. apply in_seq in Ha.
  rewrite (row_of_block_buffer
             (fun a j => blas_dot (row_of (shape_at X 1) d a)
                           (col_of (shape_at X 1) (shape_at X 0)
                              (flat_map (fun j => col_of (shape_at X 0)
                                                    (shape_at X 1) (data X) j)
                                        (seq 0 (shape_at X 1))) j)))
    by lia.
  f_equal. apply map_ext_in. intros j Hj. apply in_seq in Hj.
  rewrite transpose_columns by lia. reflexivity.
Qed.

(** ** predict, validation by validation *)

Lemma predict_unfitted (X : ndarray) (self : LinearRegressor) :
  coef self = None ->
  predict X self = (Raise (ValueError msg_not_fitted), self).
Proof. intro H. unfold predict. method_steps. rewrite H. reflexivity. Qed.

Lemma predict_wrong_rank (X w : ndarray) (self : LinearRegressor) :
  coef self = Some w -> ndim X <> 2 ->
  predict X self = (Raise (ValueError msg_X_2d), self).
Proof.
  intros H HX. unfold predict. method_steps. rewrite H.
  apply Nat.eqb_neq in HX. rewrite HX. reflexivity.
Qed.

Lemma predict_wrong_feature_count (X w : ndarray) (n : nat)
      (self : LinearRegressor) :
  coef self = Some w -> ndim X = 2 -> np_len w = Ok n -> shape_at X 1 <> n ->
  predict X self = (Raise (ValueError msg_features_coef), self).
Proof.
  intros H HX Hn Hk. unfold predict. method_steps. rewrite H, HX, Hn.
  apply Nat.eqb_neq in Hk. simpl. rewrite Hk. reflexivity.
Qed.

(** Past the fitted-state and shape checks, what is left of
    [predict] only looks at [X]. *)
Lemma predict_after_shape_checks (X w : ndarray) (self : LinearRegressor) :
  coef self = Some w -> ndim X = 2 -> np_len w = Ok (shape_at X 1) ->
  predict X self =
  if negb (issubdtype_number (arr_dtype X))
  then (Raise (ValueError msg_non_numeric), self)
  else if isnan_any X then (Raise (ValueError msg_nan), self)
  else if negb (isfinite_all X) then (Raise (ValueError msg_infinite), self)
  else match matmul X w with
       | Ok pred => (Ok pred, self)
       | Raise e => (Raise e, self)
       end.
Proof.
  intros H HX Hn. unfold predict. method_steps. rewrite H, HX, Hn.
  simpl. rewrite Nat.eqb_refl. simpl.
  destruct (negb (issubdtype_number (arr_dtype X))); [reflexivity|].
  destruct (isnan_any X); [reflexivity|].
  destruct (negb (isfinite_all X)); [reflexivity|].
  destruct (matmul X w); reflexivity.
Qed.

(* ================================================================ *)
(** ** The claims *)

(** C1 (as amended): for every [float64] [X] and [y] that pass the
    four shape validations and for which the inversion of [X^T X]
    returns, of elements [d], [fit] computes the coefficient vector
    [(D X^T) y] with [D] the matrix of elements [d]: one entry per
    column of [X], entry [a] being the inner product with [y] of the
    row of inner products of row [a] of [D] with the rows of [X].
    That vector replaces whatever [coef] held, and it is the value
    returned. *)
Theorem fit_normal_equations (X y : ndarray) (d : list float)
        (self : LinearRegressor) :
  fit_shapes_ok X y = true ->
  arr_dtype X = float64 -> arr_dtype y = float64 ->
  lapack_inv (shape_at X 1) (gram_entries X) = Some d ->
  fit X y self
  = (Ok (mk_ndarray float64 [shape_at X 1] (ols_coefficients d X y)),
     mk_LinearRegressor
       (Some (mk_ndarray float64 [shape_at X 1] (ols_coefficients d X y)))).
Proof.
  intros Hs HdX Hdy Hd.
  rewrite (fit_after_validation X y self Hs).
  rewrite (normal_equations_entries X y d Hs HdX Hdy Hd). reflexivity.
Qed.

(** C2: on an instance whose coefficients [w] were stored by [fit],
    for every [X] that passes the validations of [predict], [predict]
    returns exactly [X @ w]: the vector whose entry [i] is the inner
    product, as the routine behind [@] computes it, of row [i] of [X]
    with [w]; one dimension, one value per row; the instance is
    unchanged. *)
Theorem predict_matrix_vector_product (calls : list call) (X w : ndarray) :
  coef (run calls init) = Some w ->
  predict_input_ok w X = true ->
  let pred :=
    mk_ndarray float64 [shape_at X 0]
      (map (fun i => blas_dot (row_of (shape_at X 1) (data X) i) (data w))
           (seq 0 (shape_at X 0))) in
  matmul X w = Ok pred
  /\ predict X (run calls init) = (Ok pred, run calls init)
  /\ ndim pred = 1
  /\ length (data pred) = shape_at X 0.
Proof.
  intros Hc Hok pred.
  pose proof (run_init_coef_is_vector calls) as Hv.
  unfold coef_is_vector in Hv. rewrite Hc in Hv. destruct Hv as [Hdw Hsw].
  unfold predict_input_ok in Hok.
  rewrite !andb_true_iff in Hok.
  destruct Hok as ((((HX & Hn) & Hd) & Hnan) & Hfin).
  apply Nat.eqb_eq in HX.
  assert (Hlen : np_len w = Ok (shape_at X 1)).
  { destruct (np_len w) as [n|e]; [|discriminate].
    apply Nat.eqb_eq in Hn. now subst. }
  assert (Hk : shape w = [shape_at X 1]).
  { unfold np_len in Hlen. rewrite Hsw in *. inversion Hlen as [Hl].
    now rewrite Hl. }
  assert (HdX : arr_dtype X = float64)
    by (destruct (arr_dtype X); [reflexivity|discriminate]).
  assert (Hm : matmul X w = Ok pred)
    by (apply matmul_2d_1d; auto using ndim_2_shape).
  split; [exact Hm|]. split.
  - rewrite (predict_after_shape_checks X w _ Hc HX Hlen).
    apply negb_true_iff in Hnan. rewrite Hd, Hnan, Hfin, Hm. reflexivity.
  - split; [reflexivity|]. simpl. now rewrite length_map, length_seq.
Qed.

(** C3 (as amended): for every table of at least two rows, of
    [float64] cells and distinct column labels, in which both columns
    exist, [score] returns [1 - SSE/SST]; the value is exactly [1.0]
    when the predicted column equals the true column, the true values
    are finite, the summation gives zero for these zero squares, and
    SST is a nonzero number; it is exactly [0.0] when every predicted
    value is the mean of the true values and SST is finite and
    nonzero. *)
Theorem score_r_squared (df : DataFrame) (t p : string)
        (y_true y_pred : list float) (self : LinearRegressor) :
  2 <= df_len df ->
  NoDup (columns df) ->
  df_column df t = Ok y_true ->
  df_column df p = Ok y_pred ->
  score (PyDataFrame df) t p self
  = (Ok (1 - sse y_true y_pred / sst y_true)%float, self)
  /\ (y_pred = y_true ->
      Forall (fun x => PrimFloat.is_finite x = true) y_true ->
      add_reduce (repeat 0%float (length y_true)) = 0%float ->
      PrimFloat.is_nan (sst y_true) = false ->
      PrimFloat.is_zero (sst y_true) = false ->
      score (PyDataFrame df) t p self = (Ok 1%float, self))
  /\ (y_pred = map (fun _ => np_mean y_true) y_true ->
      PrimFloat.is_finite (sst y_true) = true ->
      PrimFloat.is_zero (sst y_true) = false ->
      score (PyDataFrame df) t p self = (Ok 0%float, self)).
Proof.
  intros Hrows _ Ht Hp.
  assert (Hscore : score (PyDataFrame df) t p self
                   = (Ok (1 - sse y_true y_pred / sst y_true)%float, self)).
  { unfold score. method_steps.
    assert (Hc : columns df <> []).
    { unfold df_column in Ht.
      destruct (index_of t (columns df)) eqn:E; [|discriminate].
      eapply index_of_some_nonempty, E. }
    assert (He : df_empty df || (df_len df <? 2) = false).
    { unfold df_empty, df_len in *. apply orb_false_iff. split.
      - apply orb_false_iff. split; apply Nat.eqb_neq.
        + lia.
        + destruct (columns df); [congruence|discriminate].
      - apply Nat.ltb_ge. lia. }
    rewrite He, Ht, Hp. reflexivity. }
  split; [exact Hscore|]. split.
  - intros -> Hfin Hsum Hnan Hzero. rewrite Hscore. unfold sse.
    rewrite (squares_of_self_difference y_true Hfin).
    unfold np_sum. rewrite Hsum.
    rewrite (one_sub_zero _ (zero_div_is_zero _ Hnan Hzero)). reflexivity.
  - intros -> Hfin Hzero. rewrite Hscore. unfold sse.
    rewrite sub_arrays_constant. fold (sst y_true).
    rewrite (div_diag_finite _ Hfin Hzero). reflexivity.
Qed.

(** C4: when [fit] returns on an [X] of [n_features] columns, the
    vector it stored has length [n_features], and every later
    [predict] on that instance (calls of [predict] and [score] may
    come in between) rejects an [X'] with another number of columns,
    and an [X'] that is not 2-dimensional. *)
Theorem fit_fixes_feature_count (X y w : ndarray)
        (self self' : LinearRegressor) :
  fit X y self = (Ok w, self') ->
  coef self' = Some w
  /\ np_len w = Ok (shape_at X 1)
  /\ length (data w) = shape_at X 1
  /\ forall calls X',
      forallb read_only calls = true ->
      (ndim X' = 2 -> shape_at X' 1 <> shape_at X 1 ->
       predict X' (run calls self')
       = (Raise (ValueError msg_features_coef), run calls self'))
      /\ (ndim X' <> 2 ->
          predict X' (run calls self')
          = (Raise (ValueError msg_X_2d), run calls self')).
Proof.
  intro Hf. destruct (fit_ok_inv _ _ _ _ _ Hf) as (Hs & Hn & ->).
  destruct (normal_equations_ok X y w Hs Hn) as (_ & _ & _ & Hsh & Hl).
  assert (Hlen : np_len w = Ok (shape_at X 1))
    by (unfold np_len; now rewrite Hsh).
  repeat split; try assumption; rewrite (run_read_only calls _ H).
  - intros HX' Hk. eapply predict_wrong_feature_count; eauto. reflexivity.
  - intros HX'. eapply predict_wrong_rank; eauto. reflexivity.
Qed.

(** C5 (as amended): on an instance on which no [fit] has returned,
    [predict] raises, for every [X], [ValueError] with the message
    "Model not fitted. Call fit first."; no other validation of
    [predict] is reached. *)
Theorem predict_before_fit (calls : list call) (X : ndarray) :
  no_fit_returns calls init = true ->
  predict X (run calls init)
  = (Raise (ValueError msg_not_fitted), run calls init).
Proof.
  intro H. rewrite (run_no_fit calls init H).
  apply predict_unfitted. reflexivity.
Qed.

(** C6 (as amended): [fit] validates in this order, the first failure
    deciding, each one raising [ValueError] and leaving the instance
    as it was: [X] is not 2-dimensional; [y] is not 1-dimensional;
    the number of rows of [X] is not the length of [y]; [X] has fewer
    rows than columns. *)
Theorem fit_validation_order (X y : ndarray) (self : LinearRegressor) :
  (ndim X <> 2 ->
   fit X y self = (Raise (ValueError msg_X_2d), self))
  /\ (ndim X = 2 -> ndim y <> 1 ->
      fit X y self = (Raise (ValueError msg_y_1d), self))
  /\ (ndim X = 2 -> ndim y = 1 -> shape_at X 0 <> shape_at y 0 ->
      fit X y self = (Raise (ValueError msg_examples_equal), self))
  /\ (ndim X = 2 -> ndim y = 1 -> shape_at X 0 = shape_at y 0 ->
      shape_at X 0 < shape_at X 1 ->
      fit X y self = (Raise (ValueError msg_examples_features), self)).
Proof.
  unfold fit. method_steps. repeat split.
  - intro HX. apply Nat.eqb_neq in HX. rewrite HX. reflexivity.
  - intros HX Hy. apply Nat.eqb_neq in Hy. rewrite HX, Hy. reflexivity.
  - intros HX Hy Hn. apply Nat.eqb_neq in Hn. rewrite HX, Hy, Hn. reflexivity.
  - intros HX Hy Hn Hk. apply Nat.ltb_lt in Hk.
    rewrite HX, Hy, <- Hn, !Nat.eqb_refl, Hk. reflexivity.
Qed.

(** C7: once the fitted-state and shape checks of [predict] have
    passed, a non-numeric [X] raises the non-numeric [ValueError]; a
    numeric [X] with a NaN anywhere raises the NaN [ValueError],
    whatever its other entries; a numeric [X] without NaN but with an
    infinite entry raises the infinity [ValueError]. *)
Theorem predict_data_quality_order (X w : ndarray) (self : LinearRegressor) :
  coef self = Some w -> ndim X = 2 -> np_len w = Ok (shape_at X 1) ->
  (issubdtype_number (arr_dtype X) = false ->
   predict X self = (Raise (ValueError msg_non_numeric), self))
  /\ (issubdtype_number (arr_dtype X) = true -> In nan (data X) ->
      predict X self = (Raise (ValueError msg_nan), self))
  /\ (issubdtype_number (arr_dtype X) = true -> ~ In nan (data X) ->
      (exists x, In x (data X) /\ PrimFloat.is_infinity x = true) ->
      predict X self = (Raise (ValueError msg_infinite), self)).
Proof.
  intros Hc HX Hn. rewrite (predict_after_shape_checks X w self Hc HX Hn).
  repeat split.
  - intros ->. reflexivity.
  - intros -> Hnan. apply existsb_is_nan_In in Hnan.
    unfold isnan_any. rewrite Hnan. reflexivity.
  - intros -> Hnan [x [Hin Hinf]].
    assert (Hno : isnan_any X = false).
    { unfold isnan_any. destruct (existsb _ _) eqn:E; [|reflexivity].
      apply existsb_is_nan_In in E. contradiction. }
    assert (Hfin : isfinite_all X = false).
    { unfold isfinite_all. destruct (forallb _ _) eqn:E; [|reflexivity].
      rewrite forallb_forall in E. specialize (E x Hin).
      unfold PrimFloat.is_finite in E. rewrite Hinf, orb_true_r in E.
      discriminate. }
    rewrite Hno, Hfin. reflexivity.
Qed.

(** C8: [score] raises [TypeError] when its first argument is not a
    [DataFrame], whatever else is true of it, and [ValueError] when
    it is a [DataFrame] of fewer than two rows. *)
Theorem score_input_checks (obj : pyobject) (t p : string)
        (self : LinearRegressor) :
  ((forall df, obj <> PyDataFrame df) ->
   score obj t p self = (Raise (TypeError msg_not_dataframe), self))
  /\ (forall df, obj = PyDataFrame df -> df_len df < 2 ->
      score obj t p self = (Raise (ValueError msg_two_points), self)).
Proof.
  split.
  - intro H. destruct obj as [df|l|a|]; try reflexivity.
    exfalso. apply (H df). reflexivity.
  - intros df -> Hlen. unfold score. method_steps.
    apply Nat.ltb_lt in Hlen. rewrite Hlen, orb_true_r. reflexivity.
Qed.

(** C9: [predict] and [score] never change the instance: whether the
    call returns or raises, [coef] is afterwards what it was. *)
Theorem predict_score_preserve_state (self : LinearRegressor) :
  (forall X, snd (predict X self) = self
             /\ coef (snd (predict X self)) = coef self)
  /\ (forall df t p, snd (score df t p self) = self
                     /\ coef (snd (score df t p self)) = coef self).
Proof.
  split; intros.
  - rewrite predict_state. auto.
  - rewrite score_state. auto.
Qed.

(** C10: [fit] validates shapes only.  For every [X] and [y] that
    pass the four shape checks, the exceptions it can still raise are
    those of the matrix product and of the inversion, never one of
    the data-quality errors of [predict]; numeric [X] and [y] go
    through to the stored coefficients whenever the inversion routine
    returns, NaN and infinite entries included; and [predict] on the
    fitted instance rejects that same [X] when it holds a NaN or an
    infinite entry. *)
Theorem fit_no_data_quality_validation (X y : ndarray)
        (self : LinearRegressor) :
  fit_shapes_ok X y = true ->
  (forall e self', fit X y self = (Raise e, self') ->
     (e = UFuncTypeError matmul_type_msg \/ e = LinAlgError msg_singular)
     /\ e <> ValueError msg_non_numeric
     /\ e <> ValueError msg_nan
     /\ e <> ValueError msg_infinite)
  /\ (forall gram d,
        arr_dtype X = float64 -> arr_dtype y = float64 ->
        matmul (transpose X) X = Ok gram ->
        lapack_inv (shape_at X 1) (data gram) = Some d ->
        exists w, fit X y self = (Ok w, mk_LinearRegressor (Some w)))
  /\ (forall w self', fit X y self = (Ok w, self') ->
        (isnan_any X = true ->
         predict X self' = (Raise (ValueError msg_nan), self'))
        /\ (isnan_any X = false -> isfinite_all X = false ->
            predict X self' = (Raise (ValueError msg_infinite), self'))).
Proof.
  intro Hs. split; [|split].
  - intros e self' Hf. rewrite (fit_after_validation X y self Hs) in Hf.
    destruct (normal_equations X y) as [w|e'] eqn:Hn; [discriminate|].
    inversion Hf. subst e'.
    destruct (normal_equations_raise X y e Hs Hn) as [->| ->];
      repeat split; auto; discriminate.
  - intros gram d HdX Hdy Hg Hd.
    destruct (projection_matrix X y d Hs HdX) as (proj & Hp & Hdp & Hsp).
    destruct (coefficient_vector X y proj Hs Hdy Hdp Hsp) as (w & Hw & _).
    exists w. rewrite (fit_after_validation X y self Hs).
    rewrite (normal_equations_numeric X y gram Hs HdX Hg), Hd, Hp.
    simpl. rewrite Hw. reflexivity.
  - intros w self' Hf.
    destruct (fit_ok_inv _ _ _ _ _ Hf) as (_ & Hn & ->).
    destruct (normal_equations_ok X y w Hs Hn) as (HdX & _ & _ & Hsh & _).
    apply fit_shapes_ok_iff in Hs. destruct Hs as (HX & _).
    assert (Hlen : np_len w = Ok (shape_at X 1))
      by (unfold np_len; now rewrite Hsh).
    rewrite (predict_after_shape_checks X w (mk_LinearRegressor (Some w))
               eq_refl HX Hlen).
    rewrite HdX. simpl. split.
    + intros ->. reflexivity.
    + intros -> ->. reflexivity.
Qed.

(* ================================================================ *)
(** ** Further properties of the three methods *)

(** A quotient by a zero is NaN or an infinity, and so is [1] minus
    it. *)
Lemma one_sub_div_zero_not_finite (s z : float) :
  PrimFloat.is_zero z = true ->
  PrimFloat.is_finite (1 - s / z)%float = false.
Proof.
  intro Hz. apply is_zero_spec in Hz. destruct Hz as [b Hz].
  assert (Hq : Prim2SF (s / z)%float = S754_nan
               \/ exists c, Prim2SF (s / z)%float = S754_infinity c).
  { rewrite div_spec, Hz.
    destruct (Prim2SF s) as [c|c| |c m e]; simpl; eauto. }
  assert (Hr : Prim2SF (1 - s / z)%float = S754_nan
               \/ exists c, Prim2SF (1 - s / z)%float = S754_infinity c).
  { rewrite sub_spec. destruct Hq as [Hq|[c Hq]]; rewrite Hq.
    - left. reflexivity.
    - right. exists (negb c). reflexivity. }
  unfold PrimFloat.is_finite. apply negb_false_iff, orb_true_iff.
  destruct Hr as [Hr|Hr].
  - left. apply is_nan_spec, Hr.
  - right. apply is_infinity_spec, Hr.
Qed.

Lemma isfinite_all_no_nan (a : ndarray) :
  isfinite_all a = true -> isnan_any a = false.
Proof.
  unfold isfinite_all, isnan_any.
  induction (data a) as [|x d IH]; simpl; [reflexivity|].
  intro H. apply andb_true_iff in H. destruct H as [Hx Hd].
  unfold PrimFloat.is_finite in Hx.
  apply negb_true_iff, orb_false_iff in Hx. destruct Hx as [Hn _].
  rewrite Hn. simpl. apply IH, Hd.
Qed.

(** Once [coef] is set, no call unsets it. *)
Lemma exec_keeps_fitted (c : call) (self : LinearRegressor) :
  coef self <> None -> coef (exec c self) <> None.
Proof.
  intro H. destruct c as [X y|X|df t p]; simpl.
  - destruct (fit X y self) as [[w|e] self'] eqn:Hf; simpl.
    + destruct (fit_ok_inv _ _ _ _ _ Hf) as (_ & _ & ->). discriminate.
    + now rewrite (fit_raise_state _ _ _ _ _ Hf).
  - now rewrite predict_state.
  - now rewrite score_state.
Qed.

Lemma run_keeps_fitted (calls : list call) (self : LinearRegressor) :
  coef self <> None -> coef (run calls self) <> None.
Proof.
  revert self. induction calls as [|c calls IH]; intros self H; simpl.
  - exact H.
  - apply IH, exec_keeps_fitted, H.
Qed.

(** X1: what [fit] returns or raises depends on [X] and [y] only, not
    on what the instance held; when it returns, the instance it leaves
    is the same from every starting point: a refit starts from
    scratch. *)
Theorem fit_history_independent (X y : ndarray) (self1 self2 : LinearRegressor) :
  fst (fit X y self1) = fst (fit X y self2)
  /\ (forall w, fst (fit X y self1) = Ok w ->
                snd (fit X y self1) = snd (fit X y self2)).
Proof.
  destruct (fit_shapes_ok X y) eqn:Hs.
  - rewrite !(fit_after_validation X y _ Hs).
    destruct (normal_equations X y); simpl; split; auto. discriminate.
  - unfold fit_shapes_ok, fit in *. method_steps.
    destruct (ndim X =? 2); simpl; [|split; [reflexivity|discriminate]].
    destruct (ndim y =? 1); simpl; [|split; [reflexivity|discriminate]].
    destruct (shape_at X 0 =? shape_at y 0); simpl;
      [|split; [reflexivity|discriminate]].
    destruct (shape_at X 0 <? shape_at X 1); simpl;
      [split; [reflexivity|discriminate]|].
    simpl in Hs. discriminate.
Qed.

(** X2: a [fit] that raises, at a validation or in the computation,
    leaves the instance exactly as it was: the coefficients of an
    earlier fit stay in place and [predict] answers as before. *)
Theorem fit_failure_keeps_model (X y : ndarray) (self : LinearRegressor) :
  (forall w, fst (fit X y self) <> Ok w) ->
  snd (fit X y self) = self
  /\ forall X', predict X' (snd (fit X y self)) = predict X' self.
Proof.
  intro H. assert (Hs : snd (fit X y self) = self).
  { destruct (fit X y self) as [[w|e] self'] eqn:Hf; simpl in *.
    - exfalso. apply (H w). reflexivity.
    - eapply fit_raise_state, Hf. }
  split; [exact Hs|]. intro X'. now rewrite Hs.
Qed.

(** X3: when the inversion routine reports a singular Gram matrix,
    [fit] raises [LinAlgError] with the message "Singular matrix"
    before anything is assigned, whatever [y] holds. *)
Theorem fit_singular_matrix (X y gram : ndarray) (self : LinearRegressor) :
  fit_shapes_ok X y = true ->
  matmul (transpose X) X = Ok gram ->
  lapack_inv (shape_at X 1) (data gram) = None ->
  fit X y self = (Raise (LinAlgError msg_singular), self).
Proof.
  intros Hs Hg Hnone.
  destruct (matmul_ok_numeric _ _ _ Hg) as [_ HdX].
  rewrite (fit_after_validation X y self Hs).
  rewrite (normal_equations_numeric X y gram Hs HdX Hg), Hnone. reflexivity.
Qed.

(** X4: [fit] raises the error of its fourth validation exactly when
    the first three pass and [X] has strictly fewer rows than columns;
    an [X] with as many rows as columns is let through. *)
Theorem fit_underdetermined_iff (X y : ndarray) (self : LinearRegressor) :
  fit X y self = (Raise (ValueError msg_examples_features), self)
  <-> ndim X = 2 /\ ndim y = 1 /\ shape_at X 0 = shape_at y 0
      /\ shape_at X 0 < shape_at X 1.
Proof.
  split.
  - intro Hf. destruct (fit_shapes_ok X y) eqn:Hs.
    + exfalso. rewrite (fit_after_validation X y self Hs) in Hf.
      destruct (normal_equations X y) as [w|e] eqn:Hn; [discriminate|].
      inversion Hf as [He].
      destruct (normal_equations_raise X y e Hs Hn) as [->| ->]; discriminate.
    + revert Hf Hs. unfold fit_shapes_ok, fit. method_steps.
      destruct (ndim X =? 2) eqn:HX; simpl; [|discriminate].
      destruct (ndim y =? 1) eqn:Hy; simpl; [|discriminate].
      destruct (shape_at X 0 =? shape_at y 0) eqn:Hn; simpl; [|discriminate].
      destruct (shape_at X 0 <? shape_at X 1) eqn:Hk; simpl; [|discriminate].
      intros _ _. apply Nat.eqb_eq in HX, Hy, Hn. apply Nat.ltb_lt in Hk. auto.
  - intros (HX & Hy & Hn & Hk). unfold fit. method_steps.
    apply Nat.ltb_lt in Hk.
    rewrite HX, Hy, <- Hn, !Nat.eqb_refl, Hk. reflexivity.
Qed.

(** X5: after a [fit] that returned on [float64] arrays, [predict]
    accepts the training matrix itself as soon as all its entries are
    finite, and returns one fitted value per training sample, the
    inner product of the sample with the stored coefficients. *)
Theorem fit_then_predict_training_data (X y w : ndarray)
        (self self' : LinearRegressor) :
  arr_dtype X = float64 -> arr_dtype y = float64 ->
  fit X y self = (Ok w, self') ->
  isfinite_all X = true ->
  predict X self'
  = (Ok (mk_ndarray float64 [shape_at y 0]
           (map (fun i => blas_dot (row_of (shape_at X 1) (data X) i) (data w))
                (seq 0 (shape_at y 0)))),
     self').
Proof.
  intros _ _ Hf Hfin. destruct (fit_ok_inv _ _ _ _ _ Hf) as (Hs & Hn & ->).
  destruct (normal_equations_ok X y w Hs Hn) as (HdX & _ & Hdw & Hsh & _).
  apply fit_shapes_ok_iff in Hs. destruct Hs as (HX & _ & Hrows & _).
  assert (Hlen : np_len w = Ok (shape_at X 1))
    by (unfold np_len; now rewrite Hsh).
  rewrite (predict_after_shape_checks X w (mk_LinearRegressor (Some w))
             eq_refl HX Hlen).
  rewrite HdX, (isfinite_all_no_nan X Hfin), Hfin. simpl.
  rewrite (matmul_2d_1d X w (shape_at X 0) (shape_at X 1))
    by auto using ndim_2_shape.
  now rewrite Hrows.
Qed.

(** X6: an instance created by [__init__] is unfitted exactly as long
    as no [fit] has returned: neither a raising [fit] nor [predict] nor
    [score] sets [coef], and once set it is never unset. *)
Theorem unfitted_iff_no_fit_returned (calls : list call) :
  coef (run calls init) = None <-> no_fit_returns calls init = true.
Proof.
  split.
  - generalize init at 1 2. intro self. 
    revert self. induction calls as [|c calls IH]; intros self H; simpl in *.
    + reflexivity.
    + destruct (fit_returns c self) eqn:Hc; simpl.
      * exfalso. apply (run_keeps_fitted calls (exec c self)); [|exact H].
        destruct c as [X y|X|df t p]; simpl in *; try discriminate.
        destruct (fit X y self) as [[w|e] self'] eqn:Hf; simpl in *;
          [|discriminate].
        destruct (fit_ok_inv _ _ _ _ _ Hf) as (_ & _ & ->). discriminate.
      * apply IH, H.
  - intro H. rewrite (run_no_fit calls init H). reflexivity.
Qed.

(** X7: whatever the calls made on an instance, [coef] is unset or a
    1-dimensional array, so that [len(self.coef)] in [predict] never
    raises. *)
Theorem coef_always_vector (calls : list call) (w : ndarray) :
  coef (run calls init) = Some w ->
  ndim w = 1 /\ np_len w = Ok (shape_at w 0).
Proof.
  intro Hc. pose proof (run_init_coef_is_vector calls) as Hv.
  unfold coef_is_vector in Hv. rewrite Hc in Hv. destruct Hv as [_ Hs].
  unfold ndim, np_len, shape_at. rewrite Hs. auto.
Qed.

(** X8: [predict] returns a value exactly when the instance is fitted
    and [X] passes the five input validations; every other call
    raises. *)
Theorem predict_returns_iff (calls : list call) (X : ndarray) :
  (exists pred, fst (predict X (run calls init)) = Ok pred)
  <-> exists w, coef (run calls init) = Some w
                /\ predict_input_ok w X = true.
Proof.
  split.
  - intros [pred H]. revert H. unfold predict, predict_input_ok. method_steps.
    destruct (coef (run calls init)) as [w|]; [|discriminate].
    intro H. exists w. split; [reflexivity|]. revert H.
    destruct (ndim X =? 2); simpl; [|discriminate].
    destruct (np_len w) as [n|e]; [|discriminate].
    destruct (shape_at X 1 =? n); simpl; [|discriminate].
    destruct (issubdtype_number (arr_dtype X)); simpl; [|discriminate].
    destruct (isnan_any X); simpl; [discriminate|].
    destruct (isfinite_all X); simpl; [reflexivity|discriminate].
  - intros [w [Hc Hok]].
    pose proof (run_init_coef_is_vector calls) as Hv.
    unfold coef_is_vector in Hv. rewrite Hc in Hv. destruct Hv as [Hdw Hsw].
    unfold predict_input_ok in Hok. rewrite !andb_true_iff in Hok.
    destruct Hok as ((((HX & Hn) & Hd) & Hnan) & Hfin).
    apply Nat.eqb_eq in HX. apply negb_true_iff in Hnan.
    assert (Hlen : np_len w = Ok (shape_at X 1)).
    { destruct (np_len w) as [n|e]; [|discriminate].
      apply Nat.eqb_eq in Hn. now subst. }
    assert (Hk : shape w = [shape_at X 1]).
    { unfold np_len in Hlen. rewrite Hsw in *. inversion Hlen as [Hl].
      now rewrite Hl. }
    assert (HdX : arr_dtype X = float64)
      by (destruct (arr_dtype X); [reflexivity|discriminate]).
    rewrite (predict_after_shape_checks X w _ Hc HX Hlen).
    rewrite Hd, Hnan, Hfin. simpl.
    rewrite (matmul_2d_1d X w (shape_at X 0) (shape_at X 1))
      by auto using ndim_2_shape.
    eexists. reflexivity.
Qed.

(** X9: an [X] without rows is no error: on a fitted instance, a
    numeric [X] of shape (0, n_features) gives the empty vector of
    predictions. *)
Theorem predict_no_rows (calls : list call) (X w : ndarray) :
  coef (run calls init) = Some w ->
  arr_dtype X = float64 ->
  shape X = [0; length (data w)] ->
  data X = [] ->
  predict X (run calls init)
  = (Ok (mk_ndarray float64 [0] []), run calls init).
Proof.
  intros Hc HdX HsX Hdata.
  pose proof (run_init_coef_is_vector calls) as Hv.
  unfold coef_is_vector in Hv. rewrite Hc in Hv. destruct Hv as [Hdw Hsw].
  assert (HX : ndim X = 2) by (unfold ndim; now rewrite HsX).
  assert (Hlen : np_len w = Ok (shape_at X 1)).
  { unfold np_len, shape_at. rewrite Hsw, HsX. reflexivity. }
  rewrite (predict_after_shape_checks X w _ Hc HX Hlen).
  unfold isnan_any, isfinite_all. rewrite HdX, Hdata. simpl.
  rewrite (matmul_2d_1d X w 0 (length (data w))) by auto.
  reflexivity.
Qed.

(** X10: in a table that [score] accepts, a column name that is not
    there raises [KeyError] carrying that name; the column of true
    values is looked up first, so its name is the one reported when
    both are missing. *)
Theorem score_missing_column (df : DataFrame) (t p : string)
        (self : LinearRegressor) :
  2 <= df_len df -> columns df <> [] ->
  (index_of t (columns df) = None ->
   score (PyDataFrame df) t p self = (Raise (KeyError t), self))
  /\ (index_of t (columns df) <> None -> index_of p (columns df) = None ->
      score (PyDataFrame df) t p self = (Raise (KeyError p), self)).
Proof.
  intros Hrows Hcols.
  assert (He : df_empty df || (df_len df <? 2) = false).
  { unfold df_empty, df_len in *. apply orb_false_iff. split.
    - apply orb_false_iff. split; apply Nat.eqb_neq.
      + lia.
      + destruct (columns df); [congruence|discriminate].
    - apply Nat.ltb_ge. lia. }
  unfold score, df_column. method_steps. rewrite He. split.
  - intros ->. reflexivity.
  - intros Ht ->. destruct (index_of t (columns df)); [reflexivity|congruence].
Qed.

(** X11: a table without columns is refused as having too few data
    points, however many rows it has and whatever column names are
    asked for. *)
Theorem score_no_columns (df : DataFrame) (t p : string)
        (self : LinearRegressor) :
  columns df = [] ->
  score (PyDataFrame df) t p self = (Raise (ValueError msg_two_points), self).
Proof.
  intro Hc. unfold score, df_empty. method_steps. rewrite Hc. simpl.
  rewrite orb_true_r. reflexivity.
Qed.

(** X12: [score] never reads the instance: its outcome is the same on
    an unfitted and on a fitted one, so it judges the predicted column
    of the table, not the coefficients of the model. *)
Theorem score_ignores_instance (obj : pyobject) (t p : string)
        (self1 self2 : LinearRegressor) :
  fst (score obj t p self1) = fst (score obj t p self2).
Proof.
  unfold score. method_steps.
  destruct obj as [df|l|a|]; try reflexivity.
  destruct (df_empty df || (df_len df <? 2)); [reflexivity|].
  destruct (df_column df t); [|reflexivity].
  destruct (df_column df p); reflexivity.
Qed.

(** X13: the quotient SSE/SST is not guarded: for a table of distinct
    column labels, when the sum of squares of the true column around
    its mean is zero, [score] still returns, and the value it returns
    is NaN or an infinity, never a finite number. *)
Theorem score_zero_variance_not_finite (df : DataFrame) (t p : string)
        (y_true y_pred : list float) (self : LinearRegressor) :
  2 <= df_len df ->
  NoDup (columns df) ->
  df_column df t = Ok y_true ->
  df_column df p = Ok y_pred ->
  PrimFloat.is_zero (sst y_true) = true ->
  exists r2, score (PyDataFrame df) t p self = (Ok r2, self)
             /\ PrimFloat.is_finite r2 = false.
Proof.
  intros Hrows _ Ht Hp Hz.
  assert (Hc : columns df <> []).
  { unfold df_column in Ht.
    destruct (index_of t (columns df)) eqn:E; [|discriminate].
    eapply index_of_some_nonempty, E. }
  assert (He : df_empty df || (df_len df <? 2) = false).
  { unfold df_empty, df_len in *. apply orb_false_iff. split.
    - apply orb_false_iff. split; apply Nat.eqb_neq.
      + lia.
      + destruct (columns df); [congruence|discriminate].
    - apply Nat.ltb_ge. lia. }
  eexists. split.
  - unfold score. method_steps. rewrite He, Ht, Hp. reflexivity.
  - apply one_sub_div_zero_not_finite. exact Hz.
Qed.

End Estimator.

(* ================================================================== *)
(** * Worked examples *)

Module Worked.

Import Examples.
Local Open Scope float_scope.

(** The line through (1,1), (2,2), (3,3): slope 1, and an intercept
    of rounding-error size. *)
Example fit_line :
  exists w, fit dot_left_to_right gauss_jordan_inv X_line y_line init
            = (Ok w, mk_LinearRegressor (Some w))
            /\ nth 1 (data w) nan = 1
            /\ (abs (nth 0 (data w) nan) <? 0x1p-40) = true.
Proof. eexists. split; [vm_compute; reflexivity|]. split; reflexivity. Qed.

(** Equal true and predicted columns that hold an infinity: the
    element-wise difference is NaN, and so is the score. *)
Example score_infinite_column :
  score sum_left_to_right
        (PyDataFrame
           (mk_DataFrame ["true"; "pred"]%string
                         [[infinity; infinity]; [1; 1]]))
        "true" "pred" init
  = (Ok nan, init).
Proof. vm_compute. reflexivity. Qed.

Lemma labels_true_pred_distinct : NoDup ["true"; "pred"]%string.
Proof.
  constructor.
  - intros [H|[]]. discriminate H.
  - constructor; [intros []|constructor].
Defined.

(** C1: [X = [[0]]] and [y = [1]] pass the four shape validations;
    the Gram matrix [[0]] is singular, [fit] raises, returns nothing
    and stores nothing: the coefficients of the earlier fit stay. *)
Lemma fit_normal_equations_counterexample :
  fit_shapes_ok X_zero y_one = true
  /\ arr_dtype X_zero = float64 /\ arr_dtype y_one = float64
  /\ fit dot_left_to_right gauss_jordan_inv X_zero y_one fitted_line
     = (Raise (LinAlgError msg_singular), fitted_line)
  /\ forall w,
      fst (fit dot_left_to_right gauss_jordan_inv X_zero y_one fitted_line)
      <> Ok w.
Proof.
  do 4 (split; [reflexivity|]).
  intros w H. vm_compute in H. discriminate H.
Qed.

(** C1 (as amended), at the two samples on the axes: the Gram matrix
    is diag(4, 16), its inverse diag(1/4, 1/16), and the coefficients
    stored over those of the line are [1, 1]. *)
Lemma fit_normal_equations_witness :
  fit_shapes_ok X_axes y_axes = true
  /\ gram_entries dot_left_to_right X_axes = [4; 0; 0; 16]
  /\ gauss_jordan_inv 2 [4; 0; 0; 16] = Some [0.25; 0; 0; 0.0625]
  /\ fit dot_left_to_right gauss_jordan_inv X_axes y_axes fitted_line
     = (Ok w_ones, mk_LinearRegressor (Some w_ones)).
Proof.
  do 3 (split; [reflexivity|]).
  exact (fit_normal_equations dot_left_to_right gauss_jordan_inv
           X_axes y_axes [0.25; 0; 0; 0.0625] fitted_line
           eq_refl eq_refl eq_refl eq_refl).
Defined.

(** C2, on the instance fitted to the samples on the axes: the
    prediction at [[1, 4]] is [5]. *)
Lemma predict_matrix_vector_product_witness :
  coef (run dot_left_to_right sum_left_to_right gauss_jordan_inv
            [CallFit X_axes y_axes] init) = Some w_ones
  /\ predict_input_ok w_ones X_query = true
  /\ predict dot_left_to_right X_query
       (run dot_left_to_right sum_left_to_right gauss_jordan_inv
            [CallFit X_axes y_axes] init)
     = (Ok (mk_ndarray float64 [1]%nat [5]),
        run dot_left_to_right sum_left_to_right gauss_jordan_inv
            [CallFit X_axes y_axes] init).
Proof.
  split; [reflexivity|]. split; [reflexivity|].
  exact (proj1 (proj2 (predict_matrix_vector_product
                         dot_left_to_right sum_left_to_right gauss_jordan_inv
                         [CallFit X_axes y_axes] X_query w_ones
                         eq_refl eq_refl))).
Defined.

(** C3: two constant, equal columns.  Every predicted value is the
    mean of the true values, and the score is NaN, not 0.0. *)
Lemma score_zero_variance_counterexample :
  exists y_true y_pred,
    2 <= df_len table_constant
    /\ df_column table_constant "true" = Ok y_true
    /\ df_column table_constant "pred" = Ok y_pred
    /\ y_pred = map (fun _ => np_mean sum_left_to_right y_true) y_true
    /\ score sum_left_to_right (PyDataFrame table_constant) "true" "pred" init
       = (Ok nan, init)
    /\ fst (score sum_left_to_right (PyDataFrame table_constant)
                  "true" "pred" init) <> Ok 0.
Proof.
  exists [2; 2], [2; 2].
  split; [apply le_n|]. do 4 (split; [reflexivity|]).
  intro H. vm_compute in H. discriminate H.
Qed.

(** C3 (as amended), on the tables of the two scenarios: equal
    columns score 1.0, a predicted column that repeats the mean
    scores 0.0. *)
Lemma score_r_squared_witness :
  (2 <= df_len table_exact
   /\ df_column table_exact "true" = Ok [1; 2; 3; 4]
   /\ df_column table_exact "pred" = Ok [1; 2; 3; 4]
   /\ score sum_left_to_right (PyDataFrame table_exact) "true" "pred" init
      = (Ok 1, init))
  /\ (2 <= df_len table_mean
      /\ df_column table_mean "true" = Ok [1; 2; 3; 4]
      /\ df_column table_mean "pred"
         = Ok (map (fun _ => np_mean sum_left_to_right [1; 2; 3; 4])
                   [1; 2; 3; 4])
      /\ score sum_left_to_right (PyDataFrame table_mean) "true" "pred" init
         = (Ok 0, init)).
Proof.
  assert (H24 : 2 <= 4) by (do 2 apply le_S; apply le_n).
  split.
  - split; [exact H24|]. split; [reflexivity|]. split; [reflexivity|].
    apply (proj1 (proj2 (score_r_squared sum_left_to_right
                           table_exact "true" "pred"
                           [1; 2; 3; 4] [1; 2; 3; 4] init
                           H24 labels_true_pred_distinct eq_refl eq_refl))).
    + reflexivity.
    + repeat constructor.
    + reflexivity.
    + reflexivity.
    + reflexivity.
  - split; [exact H24|]. split; [reflexivity|]. split; [reflexivity|].
    apply (proj2 (proj2 (score_r_squared sum_left_to_right
                           table_mean "true" "pred"
                           [1; 2; 3; 4]
                           (map (fun _ => np_mean sum_left_to_right
                                            [1; 2; 3; 4]) [1; 2; 3; 4])
                           init H24 labels_true_pred_distinct
                           eq_refl eq_refl))).
    + reflexivity.
    + reflexivity.
    + reflexivity.
Defined.

(** C4, after the fit to the line: two coefficients, and an input of
    three columns is refused, also after a [predict] and a [score]. *)
Lemma fit_fixes_feature_count_witness :
  exists w self',
    fit dot_left_to_right gauss_jordan_inv X_line y_line init = (Ok w, self')
    /\ np_len w = Ok 2%nat
    /\ predict dot_left_to_right X_three_columns
         (run dot_left_to_right sum_left_to_right gauss_jordan_inv
              [CallPredict X_query; CallScore PyNone "true" "pred"] self')
       = (Raise (ValueError msg_features_coef),
          run dot_left_to_right sum_left_to_right gauss_jordan_inv
              [CallPredict X_query; CallScore PyNone "true" "pred"] self').
Proof.
  eexists. eexists.
  assert (Hf : fit dot_left_to_right gauss_jordan_inv X_line y_line init
               = (Ok ?[w], ?[s]))
    by (vm_compute; reflexivity).
  split; [exact Hf|].
  destruct (fit_fixes_feature_count dot_left_to_right sum_left_to_right
              gauss_jordan_inv _ _ _ _ _ Hf)
    as (_ & Hlen & _ & Hp).
  split; [exact Hlen|].
  apply (proj1 (Hp [CallPredict X_query; CallScore PyNone "true" "pred"]
                   X_three_columns eq_refl)).
  - reflexivity.
  - discriminate.
Defined.

(** C5: on a fresh instance the exception is a [ValueError], and
    neither its class nor its message is the one claimed. *)
Lemma predict_before_fit_counterexample :
  exists e,
    predict dot_left_to_right X_query init = (Raise e, init)
    /\ exn_class e = "ValueError"%string
    /\ exn_msg e = "Model not fitted. Call fit first."%string
    /\ fst (predict dot_left_to_right X_query init)
       <> Raise (Exn "NotFittedError" "model not fitted; call fit first").
Proof.
  eexists. split; [reflexivity|]. repeat split. discriminate.
Qed.

(** C5 (as amended), after a [fit] that raised, a [predict] and a
    [score]: still not fitted, whatever [X] is. *)
Lemma predict_before_fit_witness :
  no_fit_returns dot_left_to_right sum_left_to_right gauss_jordan_inv
    [CallFit X_flat y_line; CallPredict X_query;
     CallScore PyNone "true" "pred"] init = true
  /\ predict dot_left_to_right X_with_nan
       (run dot_left_to_right sum_left_to_right gauss_jordan_inv
            [CallFit X_flat y_line; CallPredict X_query;
             CallScore PyNone "true" "pred"] init)
     = (Raise (ValueError msg_not_fitted),
        run dot_left_to_right sum_left_to_right gauss_jordan_inv
            [CallFit X_flat y_line; CallPredict X_query;
             CallScore PyNone "true" "pred"] init).
Proof.
  split; [reflexivity|].
  apply (predict_before_fit dot_left_to_right sum_left_to_right
           gauss_jordan_inv).
  reflexivity.
Defined.

(** C6: a 1-dimensional [X] makes [fit] raise a [ValueError]; no
    exception of a class [ShapeError] exists in the program. *)
Lemma fit_validation_order_counterexample :
  exists e,
    fit dot_left_to_right gauss_jordan_inv X_flat y_line init = (Raise e, init)
    /\ exn_class e = "ValueError"%string
    /\ exn_class e <> "ShapeError"%string.
Proof.
  eexists. split; [reflexivity|]. split; [reflexivity|discriminate].
Qed.

(** C6 (as amended), one input per validation; the third and the
    fourth inputs also fail a later validation, and the earlier one
    decides. *)
Lemma fit_validation_order_witness :
  fit dot_left_to_right gauss_jordan_inv X_flat y_matrix init
  = (Raise (ValueError msg_X_2d), init)
  /\ fit dot_left_to_right gauss_jordan_inv X_wide y_matrix init
     = (Raise (ValueError msg_y_1d), init)
  /\ fit dot_left_to_right gauss_jordan_inv X_wide y_line init
     = (Raise (ValueError msg_examples_equal), init)
  /\ fit dot_left_to_right gauss_jordan_inv X_wide y_short init
     = (Raise (ValueError msg_examples_features), init).
Proof.
  split; [|split; [|split]].
  - apply (proj1 (fit_validation_order dot_left_to_right gauss_jordan_inv
                    X_flat y_matrix init)).
    discriminate.
  - apply (proj1 (proj2 (fit_validation_order dot_left_to_right
                           gauss_jordan_inv X_wide y_matrix init))).
    + reflexivity.
    + discriminate.
  - apply (proj1 (proj2 (proj2 (fit_validation_order dot_left_to_right
                                  gauss_jordan_inv X_wide y_line init)))).
    + reflexivity.
    + reflexivity.
    + discriminate.
  - apply (proj2 (proj2 (proj2 (fit_validation_order dot_left_to_right
                                  gauss_jordan_inv X_wide y_short init)))).
    + reflexivity.
    + reflexivity.
    + reflexivity.
    + apply le_n.
Defined.

(** C7, on the instance with two coefficients: text, a NaN next to a
    valid entry, an infinity next to a valid entry. *)
Lemma predict_data_quality_order_witness :
  predict dot_left_to_right X_text fitted_line
  = (Raise (ValueError msg_non_numeric), fitted_line)
  /\ predict dot_left_to_right X_with_nan fitted_line
     = (Raise (ValueError msg_nan), fitted_line)
  /\ predict dot_left_to_right X_with_inf fitted_line
     = (Raise (ValueError msg_infinite), fitted_line).
Proof.
  split; [|split].
  - apply (proj1 (predict_data_quality_order dot_left_to_right
                    X_text w_line fitted_line eq_refl eq_refl eq_refl)).
    reflexivity.
  - apply (proj1 (proj2 (predict_data_quality_order dot_left_to_right
                           X_with_nan w_line fitted_line
                           eq_refl eq_refl eq_refl))).
    + reflexivity.
    + right. left. reflexivity.
  - apply (proj2 (proj2 (predict_data_quality_order dot_left_to_right
                           X_with_inf w_line fitted_line
                           eq_refl eq_refl eq_refl))).
    + reflexivity.
    + intros [H|[H|[]]]; discriminate H.
    + exists infinity. split; [right; left; reflexivity|reflexivity].
Defined.

(** C8: an empty list is refused for its type, not for its size; a
    table of one row is refused for its size. *)
Lemma score_input_checks_witness :
  score sum_left_to_right (PyList []) "true" "pred" init
  = (Raise (TypeError msg_not_dataframe), init)
  /\ score sum_left_to_right (PyDataFrame table_one_row) "true" "pred" init
     = (Raise (ValueError msg_two_points), init).
Proof.
  split.
  - apply (proj1 (score_input_checks sum_left_to_right
                    (PyList []) "true" "pred" init)).
    intros df H. discriminate H.
  - apply (proj2 (score_input_checks sum_left_to_right
                    (PyDataFrame table_one_row) "true" "pred" init)
                 table_one_row eq_refl).
    apply le_n.
Defined.

(** C10, at [X = [[nan]]]: [fit] returns and stores a NaN
    coefficient, and [predict] then refuses the same [X]. *)
Lemma fit_no_data_quality_validation_witness :
  fit_shapes_ok X_nan y_one = true
  /\ isnan_any X_nan = true
  /\ fit dot_left_to_right gauss_jordan_inv X_nan y_one init
     = (Ok (mk_ndarray float64 [1]%nat [nan]),
        mk_LinearRegressor (Some (mk_ndarray float64 [1]%nat [nan])))
  /\ predict dot_left_to_right X_nan
             (mk_LinearRegressor (Some (mk_ndarray float64 [1]%nat [nan])))
     = (Raise (ValueError msg_nan),
        mk_LinearRegressor (Some (mk_ndarray float64 [1]%nat [nan]))).
Proof.
  split; [reflexivity|]. split; [reflexivity|].
  assert (Hf : fit dot_left_to_right gauss_jordan_inv X_nan y_one init
               = (Ok (mk_ndarray float64 [1]%nat [nan]),
                  mk_LinearRegressor
                    (Some (mk_ndarray float64 [1]%nat [nan]))))
    by (vm_compute; reflexivity).
  split; [exact Hf|].
  apply (proj1 (proj2 (proj2 (fit_no_data_quality_validation
                                dot_left_to_right gauss_jordan_inv
                                X_nan y_one init eq_refl))
                      _ _ Hf)).
  reflexivity.
Defined.

End Worked.

(* ================================================================== *)
(** * Worked examples of the further properties *)

Module Further.

Import Examples.
Local Open Scope float_scope.

(** X1: refitting the line on a fitted instance leaves what a fit on a
    fresh instance leaves. *)
Lemma fit_history_independent_witness :
  exists w,
    fst (fit dot_left_to_right gauss_jordan_inv X_line y_line init) = Ok w
    /\ snd (fit dot_left_to_right gauss_jordan_inv X_line y_line init)
       = snd (fit dot_left_to_right gauss_jordan_inv X_line y_line fitted_line).
Proof.
  eexists.
  assert (Hf : fst (fit dot_left_to_right gauss_jordan_inv X_line y_line init)
               = Ok ?[w])
    by (vm_compute; reflexivity).
  split; [exact Hf|].
  exact (proj2 (fit_history_independent dot_left_to_right gauss_jordan_inv
                  X_line y_line init fitted_line) _ Hf).
Defined.

(** X2: a refit on a singular input raises and the fitted line
    stays. *)
Lemma fit_failure_keeps_model_witness :
  (forall w, fst (fit dot_left_to_right gauss_jordan_inv
                      X_zero y_one fitted_line) <> Ok w)
  /\ snd (fit dot_left_to_right gauss_jordan_inv X_zero y_one fitted_line)
     = fitted_line
  /\ predict dot_left_to_right X_query
       (snd (fit dot_left_to_right gauss_jordan_inv X_zero y_one fitted_line))
     = predict dot_left_to_right X_query fitted_line.
Proof.
  assert (H : forall w,
             fst (fit dot_left_to_right gauss_jordan_inv
                      X_zero y_one fitted_line) <> Ok w)
    by (intros w Hw; vm_compute in Hw; discriminate Hw).
  split; [exact H|].
  destruct (fit_failure_keeps_model dot_left_to_right gauss_jordan_inv
              X_zero y_one fitted_line H) as [Hs Hp].
  split; [exact Hs|exact (Hp X_query)].
Defined.

(** X3: the Gram matrix of [[0]] is [[0]], which the elimination
    reports as singular. *)
Lemma fit_singular_matrix_witness :
  fit_shapes_ok X_zero y_one = true
  /\ matmul dot_left_to_right (transpose X_zero) X_zero
     = Ok (mk_ndarray float64 [1; 1]%nat [0])
  /\ gauss_jordan_inv 1 [0] = None
  /\ fit dot_left_to_right gauss_jordan_inv X_zero y_one fitted_line
     = (Raise (LinAlgError msg_singular), fitted_line).
Proof.
  split; [reflexivity|]. split; [reflexivity|]. split; [reflexivity|].
  apply (fit_singular_matrix dot_left_to_right gauss_jordan_inv X_zero y_one
           (mk_ndarray float64 [1; 1]%nat [0]) fitted_line);
    reflexivity.
Defined.

(** X4: two samples of three features are refused; two samples of two
    features are not. *)
Lemma fit_underdetermined_iff_witness :
  fit dot_left_to_right gauss_jordan_inv X_wide y_short init
  = (Raise (ValueError msg_examples_features), init)
  /\ fit dot_left_to_right gauss_jordan_inv X_axes y_short init
     <> (Raise (ValueError msg_examples_features), init).
Proof.
  split.
  - apply (proj2 (fit_underdetermined_iff dot_left_to_right gauss_jordan_inv
                    X_wide y_short init)).
    split; [reflexivity|]. split; [reflexivity|]. split; [reflexivity|].
    apply le_n.
  - intro H.
    apply (proj1 (fit_underdetermined_iff dot_left_to_right gauss_jordan_inv
                    _ y_short init)) in H.
    destruct H as (_ & _ & _ & H). exact (Nat.lt_irrefl 2 H).
Defined.

(** X5: the samples on the axes, fitted and then predicted: the fitted
    values are the targets. *)
Lemma fit_then_predict_training_data_witness :
  arr_dtype X_axes = float64 /\ arr_dtype y_axes = float64
  /\ fit dot_left_to_right gauss_jordan_inv X_axes y_axes init
     = (Ok w_ones, mk_LinearRegressor (Some w_ones))
  /\ isfinite_all X_axes = true
  /\ predict dot_left_to_right X_axes (mk_LinearRegressor (Some w_ones))
     = (Ok y_axes, mk_LinearRegressor (Some w_ones)).
Proof.
  do 4 (split; [reflexivity|]).
  exact (fit_then_predict_training_data dot_left_to_right gauss_jordan_inv
           X_axes y_axes w_ones init _ eq_refl eq_refl eq_refl eq_refl).
Defined.

(** X6: after a raising fit, a predict and a score the instance is
    unfitted; after the fit of the line it is not. *)
Lemma unfitted_iff_no_fit_returned_witness :
  coef (run dot_left_to_right sum_left_to_right gauss_jordan_inv
            [CallFit X_flat y_line; CallPredict X_query;
             CallScore PyNone "true" "pred"] init) = None
  /\ no_fit_returns dot_left_to_right sum_left_to_right gauss_jordan_inv
       [CallFit X_line y_line] init = false.
Proof.
  split.
  - apply (proj2 (unfitted_iff_no_fit_returned dot_left_to_right
                    sum_left_to_right gauss_jordan_inv _)).
    reflexivity.
  - destruct (no_fit_returns dot_left_to_right sum_left_to_right
                gauss_jordan_inv [CallFit X_line y_line] init)
      eqn:E; [|reflexivity].
    apply (proj2 (unfitted_iff_no_fit_returned dot_left_to_right
                    sum_left_to_right gauss_jordan_inv _)) in E.
    vm_compute in E. discriminate E.
Defined.

(** X7: the coefficients of the fitted line. *)
Lemma coef_always_vector_witness :
  exists w,
    coef (run dot_left_to_right sum_left_to_right gauss_jordan_inv
              [CallFit X_line y_line; CallPredict X_query] init)
    = Some w
    /\ ndim w = 1%nat /\ np_len w = Ok 2%nat.
Proof.
  eexists.
  assert (Hc : coef (run dot_left_to_right sum_left_to_right gauss_jordan_inv
                         [CallFit X_line y_line; CallPredict X_query] init)
               = Some ?[w]) by (vm_compute; reflexivity).
  split; [exact Hc|].
  exact (coef_always_vector dot_left_to_right sum_left_to_right
           gauss_jordan_inv _ _ Hc).
Defined.

(** X8: on the fitted line [[1, 4]] is answered; on a fresh instance
    nothing is. *)
Lemma predict_returns_iff_witness :
  (exists pred,
      fst (predict dot_left_to_right X_query
             (run dot_left_to_right sum_left_to_right gauss_jordan_inv
                  [CallFit X_line y_line] init))
      = Ok pred)
  /\ ~ (exists w,
           coef (run dot_left_to_right sum_left_to_right gauss_jordan_inv
                     [] init) = Some w
           /\ predict_input_ok w X_query = true).
Proof.
  split.
  - apply (proj2 (predict_returns_iff dot_left_to_right sum_left_to_right
                    gauss_jordan_inv [CallFit X_line y_line] X_query)).
    eexists. split; vm_compute; reflexivity.
  - intro H.
    apply (proj2 (predict_returns_iff dot_left_to_right sum_left_to_right
                    gauss_jordan_inv [] X_query)) in H.
    destruct H as [pred H]. vm_compute in H. discriminate H.
Defined.

(** X9: no rows, two columns, on the fitted line. *)
Lemma predict_no_rows_witness :
  exists w,
    coef (run dot_left_to_right sum_left_to_right gauss_jordan_inv
              [CallFit X_line y_line] init) = Some w
    /\ shape (mk_ndarray float64 [0; 2]%nat []) = [0%nat; length (data w)]
    /\ predict dot_left_to_right (mk_ndarray float64 [0; 2]%nat [])
               (run dot_left_to_right sum_left_to_right gauss_jordan_inv
                    [CallFit X_line y_line] init)
       = (Ok (mk_ndarray float64 [0]%nat []),
          run dot_left_to_right sum_left_to_right gauss_jordan_inv
              [CallFit X_line y_line] init).
Proof.
  eexists.
  assert (Hc : coef (run dot_left_to_right sum_left_to_right gauss_jordan_inv
                         [CallFit X_line y_line] init)
               = Some ?[w]) by (vm_compute; reflexivity).
  split; [exact Hc|]. split; [reflexivity|].
  exact (predict_no_rows dot_left_to_right sum_left_to_right gauss_jordan_inv
           [CallFit X_line y_line]
           (mk_ndarray float64 [0; 2]%nat []) _ Hc eq_refl eq_refl eq_refl).
Defined.

(** X10: neither name is a column: the first one is reported; the
    first is a column and the second is not: the second is. *)
Lemma score_missing_column_witness :
  score sum_left_to_right (PyDataFrame table_exact) "actual" "guess" init
  = (Raise (KeyError "actual"), init)
  /\ score sum_left_to_right (PyDataFrame table_exact) "true" "guess" init
     = (Raise (KeyError "guess"), init).
Proof.
  assert (H24 : 2 <= df_len table_exact) by (do 2 apply le_S; apply le_n).
  assert (Hc : columns table_exact <> []) by discriminate.
  split.
  - apply (proj1 (score_missing_column sum_left_to_right
                    table_exact "actual" "guess" init H24 Hc)).
    reflexivity.
  - apply (proj2 (score_missing_column sum_left_to_right
                    table_exact "true" "guess" init H24 Hc)).
    + discriminate.
    + reflexivity.
Defined.

(** X11: three rows and no column. *)
Lemma score_no_columns_witness :
  score sum_left_to_right (PyDataFrame (mk_DataFrame [] [[]; []; []]))
        "true" "pred" init
  = (Raise (ValueError msg_two_points), init).
Proof.
  apply (score_no_columns sum_left_to_right (mk_DataFrame [] [[]; []; []])).
  reflexivity.
Defined.

(** X13: two equal true values: the score is NaN. *)
Lemma score_zero_variance_not_finite_witness :
  PrimFloat.is_zero (sst sum_left_to_right [2; 2]) = true
  /\ exists r2,
      score sum_left_to_right (PyDataFrame table_constant)
            "true" "pred" fitted_line
      = (Ok r2, fitted_line)
      /\ PrimFloat.is_finite r2 = false.
Proof.
  split; [reflexivity|].
  apply (score_zero_variance_not_finite sum_left_to_right
           table_constant "true" "pred" [2; 2] [2; 2] fitted_line).
  - apply le_n.
  - exact Worked.labels_true_pred_distinct.
  - reflexivity.
  - reflexivity.
  - reflexivity.
Defined.

End Further.
